(** * HubSpot connector: OAuth credential lifecycle and contact normalisation

    A shallow embedding of [backend/integrations/hubspot.py].  The four
    coroutines of the module ([authorize_hubspot], [oauth2callback_hubspot],
    [get_hubspot_credentials], [get_items_hubspot]) are written as functions
    in a small state-and-exception monad: the state holds the Redis store and
    the log, an exception is a value of [exn] that either is caught by a
    handler of the source or leaves the function.

    What the module only calls (the [json] library, [datetime.fromisoformat],
    the HTTP provider, the text of an exception, the environment variables)
    is gathered in the class [Platform]; every definition and theorem is
    parametric in it. *)

From Stdlib Require Import ZArith String Ascii List Bool Lia.
From stdpp Require Import base strings gmap list pretty.

Local Open Scope string_scope.
Local Open Scope Z_scope.

(** ** Python strings

    A [str] is the string of its bytes in UTF-8.  A separator, a delimiter
    or a replaced character of the module is always ASCII, so that splitting,
    replacing and searching by bytes is what Python does by characters; white
    space and iteration go by characters. *)

Module PyStr.

(** [s.split(sep)] for a one-character separator: never the empty list. *)
Fixpoint split (sep : ascii) (s : string) : list string :=
  match s with
  | EmptyString => [EmptyString]
  | String a rest =>
      if Ascii.eqb a sep then EmptyString :: split sep rest
      else match split sep rest with
           | piece :: pieces => String a piece :: pieces
           | [] => [String a EmptyString]
           end
  end.

(** [s.replace(old, new)] for a one-character [old]. *)
Fixpoint replace (old : ascii) (new : string) (s : string) : string :=
  match s with
  | EmptyString => EmptyString
  | String a rest =>
      if Ascii.eqb a old then new +:+ replace old new rest
      else String a (replace old new rest)
  end.

(** The white space [str.strip()] removes is that of Unicode
    ([str.isspace]); in UTF-8 it takes one, two or three bytes.  One byte:
    TAB, LF, VT, FF, CR, the separators FS, GS, RS, US and the space. *)
Definition isspace (a : ascii) : bool :=
  let n := nat_of_ascii a in
  ((9 <=? n)%nat && (n <=? 13)%nat) || ((28 <=? n)%nat && (n <=? 32)%nat).

(** Two bytes: U+0085 ([C2 85]) and U+00A0 ([C2 A0]). *)
Definition isspace2 (a b : ascii) : bool :=
  let x := nat_of_ascii a in
  let y := nat_of_ascii b in
  (x =? 194)%nat && ((y =? 133)%nat || (y =? 160)%nat).

(** Three bytes: U+1680 ([E1 9A 80]), U+2000 to U+200A ([E2 80 80] to
    [E2 80 8A]), U+2028, U+2029 and U+202F ([E2 80 A8], [E2 80 A9],
    [E2 80 AF]), U+205F ([E2 81 9F]) and U+3000 ([E3 80 80]). *)
Definition isspace3 (a b c : ascii) : bool :=
  let x := nat_of_ascii a in
  let y := nat_of_ascii b in
  let z := nat_of_ascii c in
  ((x =? 225)%nat && (y =? 154)%nat && (z =? 128)%nat)
  || ((x =? 226)%nat && (y =? 128)%nat
      && (((128 <=? z)%nat && (z <=? 138)%nat)
          || (z =? 168)%nat || (z =? 169)%nat || (z =? 175)%nat))
  || ((x =? 226)%nat && (y =? 129)%nat && (z =? 159)%nat)
  || ((x =? 227)%nat && (y =? 128)%nat && (z =? 128)%nat).

(** [s] without the white-space character it begins with, when it begins
    with one. *)
Definition space_head (s : string) : option string :=
  match s with
  | String a r1 =>
      if isspace a then Some r1
      else match r1 with
           | String b r2 =>
               if isspace2 a b then Some r2
               else match r2 with
                    | String c r3 => if isspace3 a b c then Some r3 else None
                    | EmptyString => None
                    end
           | EmptyString => None
           end
  | EmptyString => None
  end.

(** The same on a string read from its end: the bytes of the character
    come last byte first. *)
Definition space_head_rev (s : string) : option string :=
  match s with
  | String a r1 =>
      if isspace a then Some r1
      else match r1 with
           | String b r2 =>
               if isspace2 b a then Some r2
               else match r2 with
                    | String c r3 => if isspace3 c b a then Some r3 else None
                    | EmptyString => None
                    end
           | EmptyString => None
           end
  | EmptyString => None
  end.

(** Drops leading white-space characters, at most [fuel] of them. *)
Fixpoint drop_spaces (head : string → option string) (fuel : nat) (s : string) : string :=
  match fuel with
  | O => s
  | S fuel' =>
      match head s with
      | Some rest => drop_spaces head fuel' rest
      | None => s
      end
  end.

Fixpoint reverse_onto (s acc : string) : string :=
  match s with
  | EmptyString => acc
  | String a rest => reverse_onto rest (String a acc)
  end.

Definition reverse (s : string) : string := reverse_onto s EmptyString.

Definition lstrip (s : string) : string :=
  drop_spaces space_head (String.length s) s.

Definition rstrip (s : string) : string :=
  reverse (drop_spaces space_head_rev (String.length s) (reverse s)).

Definition strip (s : string) : string := rstrip (lstrip s).

(** [needle in hay] on two strings. *)
Fixpoint contains (needle hay : string) : bool :=
  String.prefix needle hay ||
  match hay with
  | EmptyString => false
  | String _ rest => contains needle rest
  end.

(** The character [c] occurs in [s]. *)
Fixpoint has (c : ascii) (s : string) : bool :=
  match s with
  | EmptyString => false
  | String a rest => Ascii.eqb a c || has c rest
  end.

(** How many times the character [c] occurs in [s]: [s.count(c)]. *)
Fixpoint count (c : ascii) (s : string) : nat :=
  match s with
  | EmptyString => O
  | String a rest => if Ascii.eqb a c then S (count c rest) else count c rest
  end.

(** [s] does not end with a white-space character. *)
Definition no_trailing_space (s : string) : bool :=
  match space_head_rev (reverse s) with
  | None => true
  | Some _ => false
  end.

(** [s] does not begin with a white-space character. *)
Definition no_leading_space (s : string) : bool :=
  match space_head s with
  | None => true
  | Some _ => false
  end.

Definition trimmed (s : string) : bool := no_leading_space s && no_trailing_space s.

(** None of the characters of [cs] occurs in [s]. *)
Fixpoint free_of (cs s : string) : bool :=
  match cs with
  | EmptyString => true
  | String c rest => negb (has c s) && free_of rest s
  end.

(** Truth value of a string: [bool(s)]. *)
Definition nonempty (s : string) : bool :=
  match s with EmptyString => false | _ => true end.

End PyStr.

Arguments PyStr.strip : simpl never.

(** ** Python values

    The values the module handles are those [json.loads] builds: [None],
    [bool], [int], [float], [str], [list] and [dict].  A [dict] keeps its
    members in insertion order, each key once.  A finite float is kept as the
    decimal [m * 10^e] of its literal. *)

#[local] Unset Elimination Schemes.
Inductive json : Type :=
| JNull
| JBool (b : bool)
| JInt (n : Z)
| JFloat (m e : Z)
| JString (s : string)
| JArray (items : list json)
| JObject (members : list (string * json)).
#[local] Set Elimination Schemes.

(** [d[key]] on the members of a [dict], if the key is there. *)
Fixpoint dict_lookup (key : string) (members : list (string * json)) : option json :=
  match members with
  | [] => None
  | (k, v) :: rest => if String.eqb k key then Some v else dict_lookup key rest
  end.

(** [key in d] on the members of a [dict]. *)
Definition dict_has (key : string) (members : list (string * json)) : bool :=
  match dict_lookup key members with Some _ => true | None => false end.

(** [bool(v)]: what [if not v] tests. *)
Definition truthy (v : json) : bool :=
  match v with
  | JNull => false
  | JBool b => b
  | JInt n => negb (n =? 0)
  | JFloat m _ => negb (m =? 0)
  | JString s => PyStr.nonempty s
  | JArray items => match items with [] => false | _ => true end
  | JObject members => match members with [] => false | _ => true end
  end.

Definition is_string (s : string) (v : json) : bool :=
  match v with JString t => String.eqb t s | _ => false end.

(** A byte that continues a character of several bytes ([10xxxxxx]). *)
Definition continuation (a : ascii) : bool :=
  let n := nat_of_ascii a in
  (128 <=? n)%nat && (n <? 192)%nat.

(** The characters of a string, as Python iterates them: a byte and the
    continuation bytes that follow it. *)
Fixpoint chars (s : string) : list json :=
  match s with
  | EmptyString => []
  | String a rest =>
      match chars rest with
      | JString (String b tail) :: others =>
          if continuation b
          then JString (String a (String b tail)) :: others
          else JString (String a EmptyString) :: JString (String b tail) :: others
      | others => JString (String a EmptyString) :: others
      end
  end.

(** ** The HTTP exchange *)

Record http_request := {
  req_method : string;
  req_url : string;
  req_headers : list (string * string);
  req_data : list (string * string);
  req_params : list (string * json)
}.

Record response := {
  status_code : Z;
  text : string
}.

(** [response.is_success]: a 2xx status. *)
Definition is_success (r : response) : bool :=
  (200 <=? status_code r) && (status_code r <? 300).

(** What one request to the provider comes to: the transport fails (an
    [httpx.RequestError]: no connection, timeout, ...) or a response
    arrives. *)
Inductive http_reply :=
| TransportFault (detail : string)
| Reply (r : response).

(** ** Exceptions *)

(** What a [TypeError] of this module complains about. *)
Inductive type_error := NotIterable | NotContainer | NotSubscriptable.

Inductive exn :=
| HTTPStatusError (r : response)
| RequestError (detail : string)
| JSONDecodeError (doc : string)
| ValueError (detail : string)
| AttributeError (obj : json) (attr : string)
| KeyError (key : string)
| TypeError (what : type_error) (obj : json).

(** A computation without side effects: it returns or it raises. *)
Inductive outcome (A : Type) :=
| Returned (a : A)
| Raised (e : exn).
Arguments Returned {A} a.
Arguments Raised {A} e.

#[global] Instance outcome_ret : MRet outcome := λ A a, Returned a.
#[global] Instance outcome_bind : MBind outcome := λ A B f m,
  match m with
  | Returned a => f a
  | Raised e => Raised e
  end.

(** ** Time stamps *)

(** A [datetime]: the civil fields and, when the value is aware, the offset
    from UTC in seconds. *)
Record datetime := {
  year : Z; month : Z; day : Z;
  hour : Z; minute : Z; second : Z; microsecond : Z;
  utcoffset : option Z
}.

(** ** The normalised item *)

Module IntegrationItem.
(** Modelled from the spec: the class [IntegrationItem] of
    [integration_item.py] is not part of the sources at hand; its constructor
    is taken to store the keyword arguments it is given, field by field
    (section 3, "Integration Item"). *)
Record t := {
  id : json;
  type : string;
  name : string;
  email : json;
  creation_time : option datetime;
  last_modified_time : option datetime;
  metadata : list (string * json);
  raw_data : json;
  visibility : bool
}.
End IntegrationItem.

(** ** The platform

    The environment variables read at import time, and the library
    functions the module calls without defining them. *)
Class Platform := {
  HUBSPOT_CLIENT_ID : string;
  HUBSPOT_CLIENT_SECRET : string;
  HUBSPOT_REDIRECT_URI : string;
  (** [json.loads]: [None] stands for [json.JSONDecodeError]. *)
  json_loads : string → option json;
  (** [json.dumps]. *)
  json_dumps : json → string;
  (** [datetime.fromisoformat]: [None] stands for [ValueError]. *)
  fromisoformat : string → option datetime;
  (** [repr] of a float, a list or a dict, as an f-string prints them. *)
  py_repr : json → string;
  (** [str(e)]: the text Python gives an exception. *)
  exn_str : exn → string;
  (** The provider: HubSpot's answer to a request. *)
  provider : http_request → http_reply;
  (** The static HTML document of lines 84-140. *)
  success_page : string
}.

(** ** The store, the log and the monad of the coroutines *)

Inductive log_level := INFO | ERROR.

(** Modelled from the spec: [redis_client.py] is not part of the sources at
    hand.  Section 6 gives the contract of the Credential Store:
    [set(key, value, ttl_seconds)] and [get(key) → string | absent].  The
    store is a finite map from a key to the value written last and the
    expiry it was written with; no time passes inside one call, so an entry
    is readable from the moment it is written. *)
Record world := {
  redis : gmap string (string * json);
  log : list (log_level * string)
}.

Definition M (A : Type) : Type := world → outcome A * world.

#[global] Instance M_ret : MRet M := λ A a w, (Returned a, w).
#[global] Instance M_bind : MBind M := λ A B f m w,
  match m w with
  | (Returned a, w') => f a w'
  | (Raised e, w') => (Raised e, w')
  end.

Definition raise {A} (e : exn) : M A := λ w, (Raised e, w).

(** A pure computation inside a coroutine. *)
Definition lift {A} (o : outcome A) : M A := λ w, (o, w).

(** [try: body except ...: handler].  The handler answers [None] for an
    exception none of the [except] clauses matches: that one goes on. *)
Definition try_except {A} (body : M A) (handler : exn → option (M A)) : M A :=
  λ w,
    match body w with
    | (Returned a, w') => (Returned a, w')
    | (Raised e, w') =>
        match handler e with
        | Some h => h w'
        | None => (Raised e, w')
        end
    end.

(** The world after [value] is written under [key] with the expiry
    [expire]. *)
Definition written (key value : string) (expire : json) (w : world) : world :=
  {| redis := <[key := (value, expire)]> (redis w); log := log w |}.

(** The world after one more record of the log. *)
Definition logged (level : log_level) (msg : string) (w : world) : world :=
  {| redis := redis w; log := log w ++ [(level, msg)] |}.

(** Modelled from the spec: [add_key_value_redis(key, value, expire)], the
    [set] of the Credential Store contract. *)
Definition add_key_value_redis (key value : string) (expire : json) : M unit :=
  λ w, (Returned (), written key value expire w).

(** Modelled from the spec: [get_value_redis(key)], the [get] of the
    Credential Store contract. *)
Definition get_value_redis (key : string) : M (option string) :=
  λ w, (Returned (fst <$> redis w !! key), w).

Definition logger (level : log_level) (msg : string) : M unit :=
  λ w, (Returned (), logged level msg w).

(** ** Operations of Python values that can raise *)

Definition type_name (v : json) : string :=
  match v with
  | JNull => "NoneType"
  | JBool _ => "bool"
  | JInt _ => "int"
  | JFloat _ _ => "float"
  | JString _ => "str"
  | JArray _ => "list"
  | JObject _ => "dict"
  end.

(** [obj.get(key, default)]: only a [dict] has the method. *)
Definition py_get (obj : json) (key : string) (dflt : json) : outcome json :=
  match obj with
  | JObject members => Returned (default dflt (dict_lookup key members))
  | _ => Raised (AttributeError obj "get")
  end.

(** [key in obj] for a string [key]: a key of a dict, an element of a list,
    a substring of a string; anything else is not a container. *)
Definition py_in (key : string) (obj : json) : outcome bool :=
  match obj with
  | JObject members => Returned (dict_has key members)
  | JArray items => Returned (existsb (is_string key) items)
  | JString s => Returned (PyStr.contains key s)
  | _ => Raised (TypeError NotContainer obj)
  end.

(** [for x in obj]: the elements of a list, the keys of a dict, the
    characters of a string. *)
Definition py_iter (obj : json) : outcome (list json) :=
  match obj with
  | JArray items => Returned items
  | JObject members => Returned (JString <$> members.*1)
  | JString s => Returned (chars s)
  | _ => Raised (TypeError NotIterable obj)
  end.

(** [obj[key]] for a string [key]. *)
Definition py_getitem (obj : json) (key : string) : outcome json :=
  match obj with
  | JObject members =>
      match dict_lookup key members with
      | Some v => Returned v
      | None => Raised (KeyError key)
      end
  | _ => Raised (TypeError NotSubscriptable obj)
  end.

(** [v.replace("Z", "+00:00")]: only a [str] has the method. *)
Definition py_replace_Z (v : json) : outcome string :=
  match v with
  | JString s => Returned (PyStr.replace "Z" "+00:00" s)
  | _ => Raised (AttributeError v "replace")
  end.

(** The request of a callback: its query parameters, one value per name. *)
Record Request := { query_params : gmap string string }.

(** What [oauth2callback_hubspot] returns: a dict or the HTML response. *)
Inductive callback_value :=
| Dict (d : json)
| HTMLResponse (content : string).

(** What [get_items_hubspot] returns: a dict or the list of items. *)
Inductive items_value :=
| ItemsDict (d : json)
| ItemList (items : list IntegrationItem.t).

(** The dict [{"error": msg}]. *)
Definition error_dict (msg : string) : json := JObject [("error", JString msg)].

(** The payloads of the errors of section 7 that have a fixed message. *)
Definition MissingAuthorizationCode : json := error_dict "Authorization code not found".
Definition InvalidState : json := error_dict "Invalid state parameter".
Definition InvalidProviderResponse : json := error_dict "Invalid response from HubSpot".
Definition NoCredentials : json :=
  error_dict "No valid credentials found. Please authorize HubSpot.".
Definition MissingAccessToken : json := error_dict "Access token is missing".

(** [if not code] on the result of [query_params.get("code")]. *)
Definition code_given (code : option string) : bool :=
  match code with
  | Some c => PyStr.nonempty c
  | None => false
  end.

(** The properties asked of the listing endpoint (lines 168-174). *)
Definition properties : list string :=
  [ "email"; "firstname"; "lastname"; "phone";
    "company"; "website"; "address"; "city";
    "state"; "country"; "createdate"; "lastmodifieddate";
    "jobtitle"; "lifecyclestage"; "lead_status";
    "mobilephone"; "industry" ].

(** The keys of the [metadata] dict of lines 197-214, in the order of the
    literal. *)
Definition metadata_keys : list string :=
  [ "hubspot_id"; "created_at"; "updated_at"; "company"; "website"; "address";
    "city"; "state"; "country"; "phone"; "mobile_phone"; "job_title";
    "industry"; "lifecycle_stage"; "lead_status"; "description" ].

(** The keys of [metadata] that are copied from the properties of the
    record, each with the property it is read from. *)
Definition metadata_sources : list (string * string) :=
  [ ("created_at", "createdate"); ("updated_at", "lastmodifieddate");
    ("company", "company"); ("website", "website"); ("address", "address");
    ("city", "city"); ("state", "state"); ("country", "country");
    ("phone", "phone"); ("mobile_phone", "mobilephone");
    ("job_title", "jobtitle"); ("industry", "industry");
    ("lifecycle_stage", "lifecyclestage"); ("lead_status", "lead_status") ].

Section Hubspot.
Context `{Platform}.

(** What an f-string prints for [{v}]. *)
Definition py_str (v : json) : string :=
  match v with
  | JNull => "None"
  | JBool true => "True"
  | JBool false => "False"
  | JInt n => pretty n
  | JString s => s
  | _ => py_repr v
  end.

(** [await client.post(...)] and [await client.get(...)]. *)
Definition send (req : http_request) : M response :=
  match provider req with
  | TransportFault detail => raise (RequestError detail)
  | Reply r => mret r
  end.

(** [response.raise_for_status()]. *)
Definition raise_for_status (r : response) : M unit :=
  if is_success r then mret () else raise (HTTPStatusError r).

(** [response.json()]. *)
Definition response_json (r : response) : M json :=
  match json_loads (text r) with
  | Some v => mret v
  | None => raise (JSONDecodeError (text r))
  end.

(** [datetime.fromisoformat(s)]. *)
Definition py_fromisoformat (s : string) : outcome datetime :=
  match fromisoformat s with
  | Some d => Returned d
  | None => Raised (ValueError s)
  end.

(** Lines 23-24: the module loads only with the three variables set and
    not empty. *)
Definition module_loads : outcome unit :=
  if PyStr.nonempty HUBSPOT_CLIENT_ID && PyStr.nonempty HUBSPOT_CLIENT_SECRET
     && PyStr.nonempty HUBSPOT_REDIRECT_URI
  then Returned ()
  else Raised (ValueError "Missing required HubSpot environment variables").

Definition redis_key (user_id org_id : string) : string :=
  "hubspot_credentials_" +:+ user_id +:+ "_" +:+ org_id.

(** Lines 27-37. *)
Definition authorize_hubspot (user_id org_id : string) : M json :=
  let state := user_id +:+ "_" +:+ org_id in
  let auth_url :=
    "https://app.hubspot.com/oauth/authorize?" +:+
    "client_id=" +:+ HUBSPOT_CLIENT_ID +:+ "&" +:+
    "redirect_uri=" +:+ HUBSPOT_REDIRECT_URI +:+ "&" +:+
    "scope=crm.objects.contacts.read%20crm.objects.contacts.write&" +:+
    "state=" +:+ state in
  mret (JObject [("authorization_url", JString auth_url)]).

(** The URL inside the dict [authorize_hubspot] returns. *)
Definition authorization_url (user_id org_id : string) : string :=
  "https://app.hubspot.com/oauth/authorize?client_id=" +:+ HUBSPOT_CLIENT_ID
  +:+ "&redirect_uri=" +:+ HUBSPOT_REDIRECT_URI
  +:+ "&scope=crm.objects.contacts.read%20crm.objects.contacts.write&state="
  +:+ user_id +:+ "_" +:+ org_id.

(** The token request of lines 56-66. *)
Definition token_request (code : string) : http_request :=
  {| req_method := "POST";
     req_url := "https://api.hubapi.com/oauth/v1/token";
     req_headers := [("Content-Type", "application/x-www-form-urlencoded")];
     req_data := [ ("grant_type", "authorization_code");
                   ("client_id", HUBSPOT_CLIENT_ID);
                   ("client_secret", HUBSPOT_CLIENT_SECRET);
                   ("redirect_uri", HUBSPOT_REDIRECT_URI);
                   ("code", code) ];
     req_params := [] |}.

(** Lines 40-140.  The [try] of lines 54-76 either hands on the decoded
    response ([inr]) or, through one of its two handlers, what the function
    returns ([inl]). *)
Definition oauth2callback_hubspot (request : Request) : M callback_value :=
  let code := query_params request !! "code" in
  let state := default "" (query_params request !! "state") in
  if negb (code_given code) then
    mret (Dict MissingAuthorizationCode)
  else
    match PyStr.split "_" state with
    | [user_id; org_id] =>
        exchanged ← try_except
          (response ← send (token_request (default "" code));
           raise_for_status response;;
           response_json ← response_json response;
           mret (inr response_json))
          (λ e, match e with
                | HTTPStatusError r =>
                    Some (logger ERROR ("Failed to retrieve access token: " +:+ text r);;
                          mret (inl (Dict (error_dict (text r)))))
                | JSONDecodeError _ =>
                    Some (logger ERROR "Invalid JSON response from HubSpot token endpoint.";;
                          mret (inl (Dict InvalidProviderResponse)))
                | _ => None
                end);
        match exchanged with
        | inl returned => mret returned
        | inr response_json =>
            let value := json_dumps response_json in
            expire ← lift (py_get response_json "expires_in" (JInt 1800));
            add_key_value_redis (redis_key user_id org_id) value expire;;
            mret (HTMLResponse success_page)
        end
    | _ => mret (Dict InvalidState)
    end.

(** Lines 143-156.  The [if] of lines 148-154 either returns the credentials
    ([Some]) or falls through to the last line ([None]). *)
Definition get_hubspot_credentials (user_id org_id : string) : M json :=
  stored_credentials ← get_value_redis (redis_key user_id org_id);
  found ←
    match stored_credentials with
    | Some stored =>
        if PyStr.nonempty stored then
          try_except
            (credentials ← match json_loads stored with
                           | Some v => mret v
                           | None => raise (JSONDecodeError stored)
                           end;
             has_token ← lift (py_in "access_token" credentials);
             if has_token : bool then mret (Some credentials) else mret None)
            (λ e, match e with
                  | JSONDecodeError _ =>
                      Some (logger ERROR "Failed to parse stored HubSpot credentials.";;
                            mret None)
                  | _ => None
                  end)
        else mret None
    | None => mret None
    end;
  match found with
  | Some credentials => mret credentials
  | None => mret NoCredentials
  end.

(** The listing request of lines 177-188. *)
Definition listing_request (access_token : json) : http_request :=
  {| req_method := "GET";
     req_url := "https://api.hubapi.com/crm/v3/objects/contacts";
     req_headers := [ ("Authorization", "Bearer " +:+ py_str access_token);
                      ("Content-Type", "application/json") ];
     req_data := [];
     req_params := [ ("properties", JArray (JString <$> properties));
                     ("limit", JInt 100);
                     ("archived", JBool false) ] |}.

(** Lines 217-224: [fromisoformat(props[key].replace("Z", "+00:00"))
    if key in props else None]. *)
Definition parse_timestamp (props : json) (key : string) : outcome (option datetime) :=
  present ← py_in key props;
  if present : bool then
    raw ← py_getitem props key;
    normalized ← py_replace_Z raw;
    parsed ← py_fromisoformat normalized;
    mret (Some parsed)
  else mret None.

(** The property [key] of [props] is absent, or a string that
    [fromisoformat] reads once its [Z] are replaced. *)
Definition timestamp_readable (props : list (string * json)) (key : string) : Prop :=
  match dict_lookup key props with
  | None => True
  | Some (JString raw) => is_Some (fromisoformat (PyStr.replace "Z" "+00:00" raw))
  | Some _ => False
  end.

(** Lines 195-236: the body of the loop, from one record of the listing to
    its item. *)
Definition contact_to_item (contact : json) : outcome IntegrationItem.t :=
  props ← py_get contact "properties" (JObject []);
  hubspot_id ← py_get contact "id" JNull;
  created_at ← py_get props "createdate" JNull;
  updated_at ← py_get props "lastmodifieddate" JNull;
  company ← py_get props "company" JNull;
  website ← py_get props "website" JNull;
  address ← py_get props "address" JNull;
  city ← py_get props "city" JNull;
  state ← py_get props "state" JNull;
  country ← py_get props "country" JNull;
  phone ← py_get props "phone" JNull;
  mobile_phone ← py_get props "mobilephone" JNull;
  job_title ← py_get props "jobtitle" JNull;
  industry ← py_get props "industry" JNull;
  lifecycle_stage ← py_get props "lifecyclestage" JNull;
  lead_status ← py_get props "lead_status" JNull;
  company_or_default ← py_get props "company" (JString "No Company");
  let metadata :=
    [ ("hubspot_id", hubspot_id);
      ("created_at", created_at);
      ("updated_at", updated_at);
      ("company", company);
      ("website", website);
      ("address", address);
      ("city", city);
      ("state", state);
      ("country", country);
      ("phone", phone);
      ("mobile_phone", mobile_phone);
      ("job_title", job_title);
      ("industry", industry);
      ("lifecycle_stage", lifecycle_stage);
      ("lead_status", lead_status);
      ("description", JString ("Contact at " +:+ py_str company_or_default)) ] in
  creation_time ← parse_timestamp props "createdate";
  last_modified_time ← parse_timestamp props "lastmodifieddate";
  item_id ← py_get contact "id" JNull;
  firstname ← py_get props "firstname" (JString "");
  lastname ← py_get props "lastname" (JString "");
  email ← py_get props "email" JNull;
  mret {| IntegrationItem.id := item_id;
          IntegrationItem.type := "contact";
          IntegrationItem.name := PyStr.strip (py_str firstname +:+ " " +:+ py_str lastname);
          IntegrationItem.email := email;
          IntegrationItem.creation_time := creation_time;
          IntegrationItem.last_modified_time := last_modified_time;
          IntegrationItem.metadata := metadata;
          IntegrationItem.raw_data := contact;
          IntegrationItem.visibility := true |}.

(** [item] is what the loop body makes of [contact]. *)
Definition normalises (contact : json) (item : IntegrationItem.t) : Prop :=
  contact_to_item contact = Returned item.


(** Lines 192-238: the loop; [integration_items] is the list built so
    far. *)
Fixpoint collect_items (contacts : list json) (integration_items : list IntegrationItem.t)
  : outcome (list IntegrationItem.t) :=
  match contacts with
  | [] => mret integration_items
  | contact :: rest =>
      item ← contact_to_item contact;
      collect_items rest (integration_items ++ [item])
  end.

(** Line 162: [json.loads(credentials) if isinstance(credentials, str)
    else credentials]. *)
Definition load_credentials (credentials : json) : outcome json :=
  match credentials with
  | JString s =>
      match json_loads s with
      | Some v => Returned v
      | None => Raised (JSONDecodeError s)
      end
  | _ => Returned credentials
  end.

(** Lines 162-241: the body of the [try]. *)
Definition fetch_contacts (credentials : json) : M items_value :=
  credentials_dict ← lift (load_credentials credentials);
  access_token ← lift (py_get credentials_dict "access_token" JNull);
  if negb (truthy access_token) then
    mret (ItemsDict MissingAccessToken)
  else
    response ← send (listing_request access_token);
    raise_for_status response;;
    data ← response_json response;
    results ← lift (py_get data "results" (JArray []));
    contacts ← lift (py_iter results);
    integration_items ← lift (collect_items contacts []);
    logger INFO ("Retrieved " +:+ pretty (length integration_items)
                 +:+ " contacts from HubSpot");;
    mret (ItemList integration_items).

(** Lines 243-249: the two handlers, [except httpx.HTTPStatusError] and
    [except Exception]. *)
Definition on_fetch_error (e : exn) : M items_value :=
  match e with
  | HTTPStatusError r =>
      logger ERROR ("HubSpot API Error: " +:+ text r);;
      mret (ItemsDict (error_dict (text r)))
  | _ =>
      logger ERROR ("Error in get_items_hubspot: " +:+ exn_str e);;
      mret (ItemsDict (error_dict (exn_str e)))
  end.

(** Lines 159-249. *)
Definition get_items_hubspot (credentials : json) : M items_value :=
  try_except (fetch_contacts credentials) (λ e, Some (on_fetch_error e)).

End Hubspot.

(** ** Reading a query parameter back from a URL

    What the receiver of the authorization URL does with it, after
    [urllib.parse] ([urlsplit], then [parse_qsl] with its defaults): leading
    control characters and spaces are dropped, TAB, LF and CR are removed
    everywhere, the fragment is dropped, the query is what follows the first
    [?], its fields are separated by [&], a field is [name=value], a [+]
    stands for a space and [%XX] for the byte [XX]; a field without [=] or
    with an empty value is skipped. *)

Module Url.

(** [s] up to its first [c], all of [s] without one. *)
Fixpoint before (c : ascii) (s : string) : string :=
  match s with
  | EmptyString => EmptyString
  | String a rest => if Ascii.eqb a c then EmptyString else String a (before c rest)
  end.

(** [s] after its first [c]. *)
Fixpoint after (c : ascii) (s : string) : option string :=
  match s with
  | EmptyString => None
  | String a rest => if Ascii.eqb a c then Some rest else after c rest
  end.

Definition hex_value (a : ascii) : option N :=
  let n := N_of_ascii a in
  if (48 <=? n)%N && (n <=? 57)%N then Some (n - 48)%N
  else if (65 <=? n)%N && (n <=? 70)%N then Some (n - 55)%N
  else if (97 <=? n)%N && (n <=? 102)%N then Some (n - 87)%N
  else None.

(** [unquote]: every well-formed [%XX] becomes its byte (the bytes are
    taken to form UTF-8 text, as those of an encoded [str] do). *)
Fixpoint unquote (s : string) : string :=
  match s with
  | EmptyString => EmptyString
  | String a rest =>
      if Ascii.eqb a "%" then
        match rest with
        | String h (String l rest') =>
            match hex_value h, hex_value l with
            | Some x, Some y => String (ascii_of_N (16 * x + y)) (unquote rest')
            | _, _ => String a (unquote rest)
            end
        | _ => String a (unquote rest)
        end
      else String a (unquote rest)
  end.

Definition unquote_plus (s : string) : string :=
  unquote (PyStr.replace "+" " " s).

Definition field (f : string) : option (string * string) :=
  match after "=" f with
  | Some v => if PyStr.nonempty v
              then Some (unquote_plus (before "=" f), unquote_plus v)
              else None
  | None => None
  end.

(** The characters [urlsplit] removes wherever they stand: TAB, LF and
    CR. *)
Definition unsafe : string :=
  String (ascii_of_nat 9) (String (ascii_of_nat 10) (String (ascii_of_nat 13) EmptyString)).

Fixpoint remove_unsafe (s : string) : string :=
  match s with
  | EmptyString => EmptyString
  | String a rest =>
      if PyStr.has a unsafe then remove_unsafe rest else String a (remove_unsafe rest)
  end.

(** The control characters and spaces [urlsplit] removes at the start. *)
Fixpoint lstrip_c0 (s : string) : string :=
  match s with
  | String a rest => if (nat_of_ascii a <=? 32)%nat then lstrip_c0 rest else s
  | EmptyString => EmptyString
  end.

(** The query of a URL as [urlsplit] finds it, for a URL whose scheme and
    host are well formed. *)
Definition query (url : string) : string :=
  default "" (after "?" (before "#" (remove_unsafe (lstrip_c0 url)))).

Definition parse_qsl (qs : string) : list (string * string) :=
  omap field (PyStr.split "&" qs).

Fixpoint values (name : string) (fields : list (string * string)) : list string :=
  match fields with
  | [] => []
  | (n, v) :: rest =>
      if String.eqb n name then v :: values name rest else values name rest
  end.

(** The values the URL gives the parameter [name], in order. *)
Definition query_values (url name : string) : list string :=
  values name (parse_qsl (query url)).

End Url.

(** ** A concrete platform

    An instance of [Platform] on which the coroutines run to a value: a JSON
    printer and reader for documents of null, booleans, integers, strings
    (with the escapes of the quote and the backslash), lists and dicts, in
    the layout of [json.dumps]; a reader of time stamps of the shapes
    [YYYY-MM-DD] and [YYYY-MM-DD?HH:MM:SS[.fff[fff]][+HH:MM]]; a provider
    that answers the token endpoint and the listing endpoint with two given
    replies. *)

Module Sample.

Definition dquote : ascii := ascii_of_nat 34.
Definition backslash : ascii := ascii_of_nat 92.

Fixpoint escape (s : string) : string :=
  match s with
  | EmptyString => EmptyString
  | String a rest =>
      if Ascii.eqb a dquote || Ascii.eqb a backslash
      then String backslash (String a (escape rest))
      else String a (escape rest)
  end.

Definition quoted (s : string) : string :=
  String dquote (escape s +:+ String dquote EmptyString).

Fixpoint dumps (v : json) : string :=
  match v with
  | JNull => "null"
  | JBool true => "true"
  | JBool false => "false"
  | JInt n => pretty n
  | JFloat m e => pretty m +:+ "e" +:+ pretty e
  | JString s => quoted s
  | JArray items =>
      "[" +:+
      (fix go (l : list json) : string :=
         match l with
         | [] => ""
         | x :: rest =>
             dumps x +:+ match rest with [] => "" | _ => ", " +:+ go rest end
         end) items +:+ "]"
  | JObject members =>
      "{" +:+
      (fix go (l : list (string * json)) : string :=
         match l with
         | [] => ""
         | (k, x) :: rest =>
             quoted k +:+ ": " +:+ dumps x +:+
             match rest with [] => "" | _ => ", " +:+ go rest end
         end) members +:+ "}"
  end.

Definition is_ws (a : ascii) : bool :=
  let n := nat_of_ascii a in
  (n =? 32)%nat || (n =? 9)%nat || (n =? 10)%nat || (n =? 13)%nat.

Fixpoint skip_ws (s : string) : string :=
  match s with
  | String a rest => if is_ws a then skip_ws rest else s
  | EmptyString => EmptyString
  end.

Definition digit (a : ascii) : option Z :=
  let n := Z.of_nat (nat_of_ascii a) in
  if (48 <=? n) && (n <=? 57) then Some (n - 48) else None.

Fixpoint read_digits (s : string) (acc : Z) : Z * string :=
  match s with
  | String a rest =>
      match digit a with
      | Some d => read_digits rest (10 * acc + d)
      | None => (acc, s)
      end
  | EmptyString => (acc, s)
  end.

(** A JSON integer: no leading zero, and not the start of a float. *)
Definition read_nat (s : string) : option (Z * string) :=
  match s with
  | String a rest =>
      match digit a with
      | Some d =>
          let '(n, rest') := read_digits rest d in
          let leading_zero :=
            (d =? 0) && match rest with
                        | String b _ => match digit b with Some _ => true | None => false end
                        | EmptyString => false
                        end in
          let float_follows :=
            match rest' with
            | String c _ => Ascii.eqb c "." || Ascii.eqb c "e" || Ascii.eqb c "E"
            | EmptyString => false
            end in
          if leading_zero || float_follows then None else Some (n, rest')
      | None => None
      end
  | EmptyString => None
  end.

Definition read_int (s : string) : option (Z * string) :=
  match s with
  | String a rest =>
      if Ascii.eqb a "-" then '(n, rest') ← read_nat rest; Some (- n, rest')
      else read_nat s
  | EmptyString => None
  end.

(** The characters of a string up to its closing quote. *)
Fixpoint read_string (s : string) : option (string * string) :=
  match s with
  | EmptyString => None
  | String a rest =>
      if Ascii.eqb a dquote then Some (EmptyString, rest)
      else if Ascii.eqb a backslash then
        match rest with
        | String b rest' =>
            if Ascii.eqb b dquote || Ascii.eqb b backslash
            then '(body, after) ← read_string rest'; Some (String b body, after)
            else None
        | EmptyString => None
        end
      else if (nat_of_ascii a <? 32)%nat then None
      else '(body, after) ← read_string rest; Some (String a body, after)
  end.

Fixpoint strip_prefix (p s : string) : option string :=
  match p, s with
  | EmptyString, _ => Some s
  | String a p', String b s' => if Ascii.eqb a b then strip_prefix p' s' else None
  | String _ _, EmptyString => None
  end.

(** [d[k] = v] on the members of a dict. *)
Fixpoint dict_set (k : string) (v : json) (members : list (string * json))
  : list (string * json) :=
  match members with
  | [] => [(k, v)]
  | (k', v') :: rest =>
      if String.eqb k' k then (k', v) :: rest else (k', v') :: dict_set k v rest
  end.

Fixpoint read_value (fuel : nat) (s : string) : option (json * string) :=
  match fuel with
  | O => None
  | S fuel =>
      match skip_ws s with
      | EmptyString => None
      | String c rest =>
          if Ascii.eqb c "{" then
            match skip_ws rest with
            | String c' rest' =>
                if Ascii.eqb c' "}" then Some (JObject [], rest')
                else read_members fuel rest []
            | EmptyString => None
            end
          else if Ascii.eqb c "[" then
            match skip_ws rest with
            | String c' rest' =>
                if Ascii.eqb c' "]" then Some (JArray [], rest')
                else read_elements fuel rest []
            | EmptyString => None
            end
          else if Ascii.eqb c dquote then
            '(str, rest') ← read_string rest; Some (JString str, rest')
          else
            match strip_prefix "null" (String c rest),
                  strip_prefix "true" (String c rest),
                  strip_prefix "false" (String c rest) with
            | Some rest', _, _ => Some (JNull, rest')
            | _, Some rest', _ => Some (JBool true, rest')
            | _, _, Some rest' => Some (JBool false, rest')
            | _, _, _ => '(n, rest') ← read_int (String c rest); Some (JInt n, rest')
            end
      end
  end
with read_elements (fuel : nat) (s : string) (acc : list json) : option (json * string) :=
  match fuel with
  | O => None
  | S fuel =>
      '(v, rest) ← read_value fuel s;
      match skip_ws rest with
      | String c rest' =>
          if Ascii.eqb c "," then read_elements fuel rest' (acc ++ [v])
          else if Ascii.eqb c "]" then Some (JArray (acc ++ [v]), rest')
          else None
      | EmptyString => None
      end
  end
with read_members (fuel : nat) (s : string) (acc : list (string * json))
  : option (json * string) :=
  match fuel with
  | O => None
  | S fuel =>
      match skip_ws s with
      | String q rest =>
          if Ascii.eqb q dquote then
            '(k, rest) ← read_string rest;
            match skip_ws rest with
            | String c rest =>
                if Ascii.eqb c ":" then
                  '(v, rest) ← read_value fuel rest;
                  match skip_ws rest with
                  | String c' rest' =>
                      if Ascii.eqb c' "," then read_members fuel rest' (dict_set k v acc)
                      else if Ascii.eqb c' "}" then Some (JObject (dict_set k v acc), rest')
                      else None
                  | EmptyString => None
                  end
                else None
            | EmptyString => None
            end
          else None
      | EmptyString => None
      end
  end.

Definition loads (s : string) : option json :=
  '(v, rest) ← read_value (2 * String.length s + 2) s;
  match skip_ws rest with
  | EmptyString => Some v
  | _ => None
  end.

Definition two_digits (s : string) : option (Z * string) :=
  match s with
  | String a (String b rest) =>
      x ← digit a; y ← digit b; Some (10 * x + y, rest)
  | _ => None
  end.

Definition four_digits (s : string) : option (Z * string) :=
  '(hi, rest) ← two_digits s; '(lo, rest') ← two_digits rest;
  Some (100 * hi + lo, rest').

Definition expect (c : ascii) (s : string) : option string :=
  match s with
  | String a rest => if Ascii.eqb a c then Some rest else None
  | EmptyString => None
  end.

Definition is_leap (y : Z) : bool :=
  (y mod 4 =? 0) && (negb (y mod 100 =? 0) || (y mod 400 =? 0)).

Definition days_in_month (y m : Z) : Z :=
  if m =? 2 then (if is_leap y then 29 else 28)
  else if (m =? 4) || (m =? 6) || (m =? 9) || (m =? 11) then 30
  else 31.

(** The fraction of a second, [.fff] or [.ffffff], in microseconds. *)
Definition read_fraction (s : string) : option (Z * string) :=
  match s with
  | String c rest =>
      if Ascii.eqb c "." then
        '(a, rest) ← two_digits rest;
        match rest with
        | String d rest1 =>
            ms ← digit d;
            match two_digits rest1 with
            | Some (b, String e rest2) =>
                match digit e with
                | Some us => Some ((10 * a + ms) * 1000 + 10 * b + us, rest2)
                | None => Some ((10 * a + ms) * 1000, rest1)
                end
            | _ => Some ((10 * a + ms) * 1000, rest1)
            end
        | EmptyString => None
        end
      else Some (0, s)
  | EmptyString => Some (0, s)
  end.

(** The offset from UTC, [+HH:MM] or [-HH:MM], in seconds. *)
Definition read_offset (s : string) : option (option Z) :=
  match s with
  | EmptyString => Some None
  | String c rest =>
      if Ascii.eqb c "+" || Ascii.eqb c "-" then
        '(hh, rest) ← two_digits rest;
        rest ← expect ":" rest;
        '(mm, rest) ← two_digits rest;
        match rest with
        | EmptyString =>
            if (hh <? 24) && (mm <? 60)
            then Some (Some ((if Ascii.eqb c "-" then -1 else 1) * (hh * 3600 + mm * 60)))
            else None
        | _ => None
        end
      else None
  end.

Definition isoformat (s : string) : option datetime :=
  '(y, rest) ← four_digits s;
  rest ← expect "-" rest;
  '(m, rest) ← two_digits rest;
  rest ← expect "-" rest;
  '(d, rest) ← two_digits rest;
  if (1 <=? y) && (1 <=? m) && (m <=? 12) && (1 <=? d) && (d <=? days_in_month y m) then
    match rest with
    | EmptyString =>
        Some {| year := y; month := m; day := d; hour := 0; minute := 0;
                second := 0; microsecond := 0; utcoffset := None |}
    | String _ rest =>
        '(hh, rest) ← two_digits rest;
        rest ← expect ":" rest;
        '(mi, rest) ← two_digits rest;
        rest ← expect ":" rest;
        '(ss, rest) ← two_digits rest;
        '(us, rest) ← read_fraction rest;
        off ← read_offset rest;
        if (hh <? 24) && (mi <? 60) && (ss <? 60) then
          Some {| year := y; month := m; day := d; hour := hh; minute := mi;
                  second := ss; microsecond := us; utcoffset := off |}
        else None
    end
  else None.

(** [repr] of a value whose strings hold no quote, backslash or control
    character. *)
Fixpoint repr (v : json) : string :=
  match v with
  | JNull => "None"
  | JBool true => "True"
  | JBool false => "False"
  | JInt n => pretty n
  | JFloat m e => pretty m +:+ "e" +:+ pretty e
  | JString s => "'" +:+ s +:+ "'"
  | JArray items =>
      "[" +:+
      (fix go (l : list json) : string :=
         match l with
         | [] => ""
         | x :: rest =>
             repr x +:+ match rest with [] => "" | _ => ", " +:+ go rest end
         end) items +:+ "]"
  | JObject members =>
      "{" +:+
      (fix go (l : list (string * json)) : string :=
         match l with
         | [] => ""
         | (k, x) :: rest =>
             "'" +:+ k +:+ "': " +:+ repr x +:+
             match rest with [] => "" | _ => ", " +:+ go rest end
         end) members +:+ "}"
  end.

Definition message (e : exn) : string :=
  match e with
  | HTTPStatusError r => "HTTP status " +:+ pretty (status_code r)
  | RequestError detail => detail
  | JSONDecodeError _ => "Expecting value: line 1 column 1 (char 0)"
  | ValueError detail => "Invalid isoformat string: '" +:+ detail +:+ "'"
  | AttributeError obj attr =>
      "'" +:+ type_name obj +:+ "' object has no attribute '" +:+ attr +:+ "'"
  | KeyError key => "'" +:+ key +:+ "'"
  | TypeError NotIterable obj => "'" +:+ type_name obj +:+ "' object is not iterable"
  | TypeError NotContainer obj =>
      "argument of type '" +:+ type_name obj +:+ "' is not iterable"
  | TypeError NotSubscriptable obj =>
      "'" +:+ type_name obj +:+ "' object is not subscriptable"
  end.

(** The provider answers [token] at the token endpoint and [listing]
    everywhere else. *)
Definition platform (token listing : http_reply) : Platform :=
  {| HUBSPOT_CLIENT_ID := "client-id";
     HUBSPOT_CLIENT_SECRET := "client-secret";
     HUBSPOT_REDIRECT_URI := "http://localhost:8000/integrations/hubspot/oauth2callback";
     json_loads := loads;
     json_dumps := dumps;
     fromisoformat := isoformat;
     py_repr := repr;
     exn_str := message;
     provider := λ req,
       if String.eqb (req_url req) "https://api.hubapi.com/oauth/v1/token"
       then token else listing;
     success_page := "<html><head><title>HubSpot Authorization Success</title></head></html>" |}.

Definition ok (body : string) : http_reply :=
  Reply {| status_code := 200; text := body |}.

(** A JSON member [name: value] with the name in quotes. *)
Definition member (name value : string) : string :=
  quoted name +:+ ":" +:+ value.

(** The token response of section 8:
    [{"access_token":"tok123","expires_in":600}]. *)
Definition token_body : string :=
  "{" +:+ member "access_token" (quoted "tok123") +:+ ","
      +:+ member "expires_in" "600" +:+ "}".

(** The listing of section 8, with its one record. *)
Definition jane : string :=
  "{" +:+ member "id" (quoted "1") +:+ "," +:+
  member "properties"
    ("{" +:+ member "firstname" (quoted "Jane") +:+ "," +:+
             member "lastname" (quoted "Doe") +:+ "," +:+
             member "company" (quoted "Acme") +:+ "," +:+
             member "createdate" (quoted "2023-01-01T00:00:00Z") +:+ "}") +:+ "}".

Fixpoint join (sep : string) (parts : list string) : string :=
  match parts with
  | [] => ""
  | part :: rest => part +:+ match rest with [] => "" | _ => sep +:+ join sep rest end
  end.

(** A listing response with the given records. *)
Definition listing_of (records : list string) : string :=
  "{" +:+ member "results" ("[" +:+ join "," records +:+ "]") +:+ "}".

Definition listing_body : string := listing_of [jane].

(** A record whose [company] property is there and null:
    [{"id":"2","properties":{"firstname":"Sam","company":null}}]. *)
Definition sam : string :=
  "{" +:+ member "id" (quoted "2") +:+ "," +:+
  member "properties"
    ("{" +:+ member "firstname" (quoted "Sam") +:+ "," +:+
             member "company" "null" +:+ "}") +:+ "}".

(** A record whose creation date is not a date and whose modification date
    is one. *)
Definition kim : string :=
  "{" +:+ member "id" (quoted "3") +:+ "," +:+
  member "properties"
    ("{" +:+ member "createdate" (quoted "not-a-date") +:+ "," +:+
             member "lastmodifieddate" (quoted "2023-01-02T00:00:00Z") +:+ "}") +:+ "}".

(** What [jane], [sam] and [kim] decode to. *)
Definition jane_record : json :=
  JObject [ ("id", JString "1");
            ("properties",
             JObject [ ("firstname", JString "Jane"); ("lastname", JString "Doe");
                       ("company", JString "Acme");
                       ("createdate", JString "2023-01-01T00:00:00Z") ]) ].

Definition sam_record : json :=
  JObject [ ("id", JString "2");
            ("properties",
             JObject [ ("firstname", JString "Sam"); ("company", JNull) ]) ].

Definition kim_record : json :=
  JObject [ ("id", JString "3");
            ("properties",
             JObject [ ("createdate", JString "not-a-date");
                       ("lastmodifieddate", JString "2023-01-02T00:00:00Z") ]) ].

(** The credential of section 8: [{"access_token":"tok123"}]. *)
Definition credential : json := JObject [("access_token", JString "tok123")].

Definition empty_world : world := {| redis := ∅; log := [] |}.

(** The platform of the examples of section 8. *)
Definition hubspot : Platform := platform (ok token_body) (ok listing_body).

(** A callback request with the given [code] and [state]. *)
Definition callback (code state : option string) : Request :=
  {| query_params :=
       from_option (λ c, {[ "code" := c ]}) ∅ code
       ∪ from_option (λ s, {[ "state" := s ]}) ∅ state |}.

(** An answer outside 2xx. *)
Definition refused (body : string) : http_reply :=
  Reply {| status_code := 401; text := body |}.

(** A listing whose [results] is the string [ab]. *)
Definition letters_body : string :=
  "{" +:+ member "results" (quoted "ab") +:+ "}".

(** The item the fetch makes of [jane]. *)
Definition jane_item : IntegrationItem.t :=
  {| IntegrationItem.id := JString "1";
     IntegrationItem.type := "contact";
     IntegrationItem.name := "Jane Doe";
     IntegrationItem.email := JNull;
     IntegrationItem.creation_time :=
       Some {| year := 2023; month := 1; day := 1; hour := 0; minute := 0;
               second := 0; microsecond := 0; utcoffset := Some 0 |};
     IntegrationItem.last_modified_time := None;
     IntegrationItem.metadata :=
       [ ("hubspot_id", JString "1");
         ("created_at", JString "2023-01-01T00:00:00Z");
         ("updated_at", JNull); ("company", JString "Acme");
         ("website", JNull); ("address", JNull); ("city", JNull);
         ("state", JNull); ("country", JNull); ("phone", JNull);
         ("mobile_phone", JNull); ("job_title", JNull); ("industry", JNull);
         ("lifecycle_stage", JNull); ("lead_status", JNull);
         ("description", JString "Contact at Acme") ];
     IntegrationItem.raw_data := jane_record;
     IntegrationItem.visibility := true |}.

(** A store that holds [value] for the user [u1] of the organisation
    [o1], and nothing else. *)
Definition stored (value : string) : world :=
  {| redis := {[ "hubspot_credentials_u1_o1" := (value, JInt 1800) ]}; log := [] |}.

End Sample.

(** * Properties *)

(** Unfolds the monad of the coroutines, so that a coroutine applied to a
    world computes. *)
Ltac run :=
  unfold mbind, mret, M_bind, M_ret, try_except, lift, raise, logger,
         add_key_value_redis, get_value_redis;
  simpl.

(** ** Worked examples *)

Example split_two : PyStr.split "_" "u1_o1" = ["u1"; "o1"].
Proof. reflexivity. Qed.

Example split_none : PyStr.split "_" "abc" = ["abc"].
Proof. reflexivity. Qed.

Example split_three : PyStr.split "_" "a_b_c" = ["a"; "b"; "c"].
Proof. reflexivity. Qed.

Example split_empty : PyStr.split "_" "" = [""].
Proof. reflexivity. Qed.

Example replace_Z :
  PyStr.replace "Z" "+00:00" "2023-01-01T00:00:00Z" = "2023-01-01T00:00:00+00:00".
Proof. reflexivity. Qed.

Example strip_name : PyStr.strip " Doe  " = "Doe".
Proof. reflexivity. Qed.

Example strip_no_break_space :
  PyStr.strip ("Jane Doe" +:+ String (ascii_of_nat 194) (String (ascii_of_nat 160) ""))
  = "Jane Doe".
Proof. vm_compute. reflexivity. Qed.

Example strip_wide_spaces :
  PyStr.strip (String (ascii_of_nat 227) (String (ascii_of_nat 128) (String (ascii_of_nat 128)
                 ("a b" +:+ String (ascii_of_nat 226) (String (ascii_of_nat 128)
                                      (String (ascii_of_nat 168) " "))))))
  = "a b".
Proof. vm_compute. reflexivity. Qed.

Example strip_keeps_other_bytes :
  PyStr.strip (String (ascii_of_nat 195) (String (ascii_of_nat 160) ""))
  = String (ascii_of_nat 195) (String (ascii_of_nat 160) "").
Proof. vm_compute. reflexivity. Qed.

Example chars_by_character :
  chars (String (ascii_of_nat 195) (String (ascii_of_nat 169) "a"))
  = [JString (String (ascii_of_nat 195) (String (ascii_of_nat 169) "")); JString "a"].
Proof. vm_compute. reflexivity. Qed.

Example query_drops_tab :
  Url.query_values
    (authorization_url (H := Sample.hubspot) ("a" +:+ String (ascii_of_nat 9) "b") "c")
    "state"
  = ["ab_c"].
Proof. vm_compute. reflexivity. Qed.

Example sample_loads_token :
  Sample.loads Sample.token_body
  = Some (JObject [("access_token", JString "tok123"); ("expires_in", JInt 600)]).
Proof. vm_compute. reflexivity. Qed.

Example sample_loads_rejects : Sample.loads "not json" = None.
Proof. vm_compute. reflexivity. Qed.

Example sample_isoformat_rejects : Sample.isoformat "not-a-date" = None.
Proof. vm_compute. reflexivity. Qed.

(** ** The callback: its two guards *)

Section Callback.
Context `{Platform}.

Lemma code_given_false (code : option string) :
  code_given code = false ↔ code = None ∨ code = Some "".
Proof.
  destruct code as [[|a c]|]; simpl; split; intros Hc; try done; auto;
    destruct Hc as [Hc|Hc]; discriminate.
Qed.

Lemma code_given_true (code : option string) :
  code_given code = true ↔ ∃ c, code = Some c ∧ c ≠ "".
Proof.
  destruct code as [[|a c]|]; simpl; split; intros Hc; try done.
  - destruct Hc as (c & [= <-] & Hne). done.
  - eexists. split; [done|]. discriminate.
  - destruct Hc as (c & Hc & _). discriminate.
Qed.

Lemma callback_without_code (request : Request) (w : world) :
  code_given (query_params request !! "code") = false →
  oauth2callback_hubspot request w = (Returned (Dict MissingAuthorizationCode), w).
Proof. intros Hc. unfold oauth2callback_hubspot. rewrite Hc. reflexivity. Qed.

Lemma callback_bad_state (request : Request) (w : world) :
  code_given (query_params request !! "code") = true →
  length (PyStr.split "_" (default "" (query_params request !! "state"))) ≠ 2%nat →
  oauth2callback_hubspot request w = (Returned (Dict InvalidState), w).
Proof.
  intros Hc Hlen. unfold oauth2callback_hubspot. rewrite Hc. simpl.
  destruct (PyStr.split "_" _) as [|u [|o [|x rest]]]; simpl in *; try reflexivity.
  lia.
Qed.

(** C3, as amended: when the [code] parameter is absent or empty the
    callback returns the MissingAuthorizationCode payload; when [code] is
    given and not empty and the state does not split on the underscore into
    exactly two parts, it returns the InvalidState payload; in both cases the
    store (and the log) is left as it was. *)
Theorem callback_guards (request : Request) (w : world) :
  (query_params request !! "code" = None ∨ query_params request !! "code" = Some "" →
   oauth2callback_hubspot request w = (Returned (Dict MissingAuthorizationCode), w)) ∧
  (∀ c, query_params request !! "code" = Some c → c ≠ "" →
        length (PyStr.split "_" (default "" (query_params request !! "state"))) ≠ 2%nat →
        oauth2callback_hubspot request w = (Returned (Dict InvalidState), w)).
Proof.
  split.
  - intros Hc. apply callback_without_code. by apply code_given_false.
  - intros c Hc Hne Hlen. apply callback_bad_state; [|done].
    apply code_given_true. eauto.
Qed.

End Callback.

Lemma callback_guards_witness :
  oauth2callback_hubspot (H := Sample.hubspot)
    (Sample.callback None (Some "u1_o1")) Sample.empty_world
  = (Returned (Dict MissingAuthorizationCode), Sample.empty_world)
  ∧ oauth2callback_hubspot (H := Sample.hubspot)
      (Sample.callback (Some "c0de") (Some "a_b_c")) Sample.empty_world
    = (Returned (Dict InvalidState), Sample.empty_world).
Proof.
  split.
  - apply (proj1 (callback_guards (H := Sample.hubspot) _ _)).
    left. vm_compute. reflexivity.
  - apply (proj2 (callback_guards (H := Sample.hubspot) _ _)) with (c := "c0de").
    + vm_compute. reflexivity.
    + discriminate.
    + vm_compute. lia.
Defined.

(** C3, as stated, fails when the [code] parameter is present and empty
    ([?code=&state=abc]): the state does not split into two parts, yet the
    callback returns MissingAuthorizationCode, not InvalidState. *)
Lemma callback_empty_code_is_missing :
  query_params (Sample.callback (Some "") (Some "abc")) !! "code" = Some ""
  ∧ length (PyStr.split "_" "abc") ≠ 2%nat
  ∧ fst (oauth2callback_hubspot (H := Sample.hubspot)
           (Sample.callback (Some "") (Some "abc")) Sample.empty_world)
    = Returned (Dict MissingAuthorizationCode)
  ∧ fst (oauth2callback_hubspot (H := Sample.hubspot)
           (Sample.callback (Some "") (Some "abc")) Sample.empty_world)
    ≠ Returned (Dict InvalidState).
Proof.
  split; [vm_compute; reflexivity|].
  split; [vm_compute; lia|].
  split; [vm_compute; reflexivity|].
  vm_compute. discriminate.
Qed.

(** ** Reading the credentials back *)

Section Credentials.
Context `{Platform}.

Lemma nonempty_true (s : string) : s ≠ "" → PyStr.nonempty s = true.
Proof. by destruct s. Qed.



Lemma credentials_parsed (user_id org_id stored : string) (ttl v : json) (w : world) :
  redis w !! redis_key user_id org_id = Some (stored, ttl) →
  stored ≠ "" →
  json_loads stored = Some v →
  get_hubspot_credentials user_id org_id w
  = match py_in "access_token" v with
    | Returned true => (Returned v, w)
    | Returned false => (Returned NoCredentials, w)
    | Raised e => (Raised e, w)
    end.
Proof.
  intros Hk Hne Hj. unfold get_hubspot_credentials. run.
  rewrite Hk. simpl. rewrite (nonempty_true _ Hne), Hj.
  destruct (py_in "access_token" v) as [[|]|e] eqn:Hin; try reflexivity.
  destruct v; simpl in Hin; try discriminate; by simplify_eq.
Qed.

(** When the stored value parses to a value on which [in] is defined (a
    dict, a list, a string) and the parsed value does not hold
    [access_token], the result is the NoCredentials payload; when it holds
    [access_token], the result is the parsed value itself, untouched.  For a
    dict, holding [access_token] is having the key. *)
Theorem credentials_pass_through
  (user_id org_id stored : string) (ttl v : json) (w : world) :
  redis w !! redis_key user_id org_id = Some (stored, ttl) →
  stored ≠ "" →
  json_loads stored = Some v →
  (∀ members, v = JObject members → dict_lookup "access_token" members = None →
     get_hubspot_credentials user_id org_id w = (Returned NoCredentials, w))
  ∧ (∀ members token, v = JObject members →
       dict_lookup "access_token" members = Some token →
       get_hubspot_credentials user_id org_id w = (Returned (JObject members), w))
  ∧ (py_in "access_token" v = Returned false →
       get_hubspot_credentials user_id org_id w = (Returned NoCredentials, w))
  ∧ (py_in "access_token" v = Returned true →
       get_hubspot_credentials user_id org_id w = (Returned v, w)).
Proof.
  intros Hk Hne Hj. rewrite (credentials_parsed _ _ _ _ _ _ Hk Hne Hj).
  repeat split.
  - intros members -> Hm. simpl. unfold dict_has. by rewrite Hm.
  - intros members token -> Hm. simpl. unfold dict_has. by rewrite Hm.
  - by intros ->.
  - by intros ->.
Qed.


End Credentials.

Lemma credentials_pass_through_witness :
  get_hubspot_credentials (H := Sample.hubspot) "u1" "o1"
    (Sample.stored (Sample.dumps (JObject [("access_token", JString "tok123")])))
  = (Returned (JObject [("access_token", JString "tok123")]),
     Sample.stored (Sample.dumps (JObject [("access_token", JString "tok123")])))
  ∧ get_hubspot_credentials (H := Sample.hubspot) "u1" "o1"
      (Sample.stored (Sample.dumps (JObject [("expires_in", JInt 600)])))
    = (Returned NoCredentials,
       Sample.stored (Sample.dumps (JObject [("expires_in", JInt 600)]))).
Proof.
  split.
  - destruct (credentials_pass_through (H := Sample.hubspot) "u1" "o1"
                (Sample.dumps (JObject [("access_token", JString "tok123")]))
                (JInt 1800) (JObject [("access_token", JString "tok123")])
                (Sample.stored (Sample.dumps (JObject [("access_token", JString "tok123")]))))
      as (_ & Hhas & _).
    + vm_compute. reflexivity.
    + vm_compute. discriminate.
    + vm_compute. reflexivity.
    + apply (Hhas [("access_token", JString "tok123")] (JString "tok123")); reflexivity.
  - destruct (credentials_pass_through (H := Sample.hubspot) "u1" "o1"
                (Sample.dumps (JObject [("expires_in", JInt 600)]))
                (JInt 1800) (JObject [("expires_in", JInt 600)])
                (Sample.stored (Sample.dumps (JObject [("expires_in", JInt 600)]))))
      as (Hlacks & _).
    + vm_compute. reflexivity.
    + vm_compute. discriminate.
    + vm_compute. reflexivity.
    + apply (Hlacks [("expires_in", JInt 600)]); reflexivity.
Defined.



(** C4 fails on a stored value that parses and is neither a dict, a list
    nor a string: [null] and [true] lack [access_token], and instead of the
    NoCredentials payload the lookup raises the [TypeError] of
    ["access_token" in credentials], which no handler catches. *)
Theorem scalar_credentials_raise :
  json_loads (Platform := Sample.hubspot) "null" = Some JNull
  ∧ get_hubspot_credentials (H := Sample.hubspot) "u1" "o1" (Sample.stored "null")
    = (Raised (TypeError NotContainer JNull), Sample.stored "null")
  ∧ json_loads (Platform := Sample.hubspot) "true" = Some (JBool true)
  ∧ get_hubspot_credentials (H := Sample.hubspot) "u1" "o1" (Sample.stored "true")
    = (Raised (TypeError NotContainer (JBool true)), Sample.stored "true").
Proof. repeat split; vm_compute; reflexivity. Qed.


(** ** The token exchange *)

Section Exchange.
Context `{Platform}.

Variables (request : Request) (w : world) (code user_id org_id : string).
Hypothesis Hcode : query_params request !! "code" = Some code.
Hypothesis Hgiven : code ≠ "".
Hypothesis Hstate :
  PyStr.split "_" (default "" (query_params request !! "state")) = [user_id; org_id].

Lemma exchange_transport_fault (detail : string) :
  provider (token_request code) = TransportFault detail →
  oauth2callback_hubspot request w = (Raised (RequestError detail), w).
Proof using Hcode Hgiven Hstate.
  intros Hp. unfold oauth2callback_hubspot.
  rewrite Hcode, Hstate. simpl. rewrite (nonempty_true _ Hgiven). simpl.
  run. unfold send. rewrite Hp. reflexivity.
Qed.

Lemma exchange_status_error (r : response) :
  provider (token_request code) = Reply r →
  is_success r = false →
  oauth2callback_hubspot request w
  = (Returned (Dict (error_dict (text r))),
     logged ERROR ("Failed to retrieve access token: " +:+ text r) w).
Proof using Hcode Hgiven Hstate.
  intros Hp Hs. unfold oauth2callback_hubspot.
  rewrite Hcode, Hstate. simpl. rewrite (nonempty_true _ Hgiven). simpl.
  run. unfold send, raise_for_status. rewrite Hp. run. rewrite Hs. reflexivity.
Qed.


Lemma exchange_decoded (r : response) (decoded : json) :
  provider (token_request code) = Reply r →
  is_success r = true →
  json_loads (text r) = Some decoded →
  oauth2callback_hubspot request w
  = match py_get decoded "expires_in" (JInt 1800) with
    | Returned expire =>
        (Returned (HTMLResponse success_page),
         written (redis_key user_id org_id) (json_dumps decoded) expire w)
    | Raised e => (Raised e, w)
    end.
Proof using Hcode Hgiven Hstate.
  intros Hp Hs Hj. unfold oauth2callback_hubspot.
  rewrite Hcode, Hstate. simpl. rewrite (nonempty_true _ Hgiven). simpl.
  run. unfold send, raise_for_status, response_json. rewrite Hp. run.
  rewrite Hs. run. rewrite Hj.
  destruct (py_get decoded "expires_in" (JInt 1800)); reflexivity.
Qed.

(** C1: when the exchange succeeds with a JSON object, the callback answers
    with the confirmation page and leaves, under the key
    [hubspot_credentials_{user_id}_{org_id}], the response as [json.dumps]
    prints it, with the expiry [expires_in] of the response, or 1800 when the
    response has none; [get_hubspot_credentials] then returns a value whose
    [access_token] is that of the response.  (Reading back what [json.dumps]
    printed is assumed of the [json] library.) *)
Theorem callback_stores_token_response (r : response) (members : list (string * json)) :
  provider (token_request code) = Reply r →
  is_success r = true →
  json_loads (text r) = Some (JObject members) →
  json_dumps (JObject members) ≠ "" →
  json_loads (json_dumps (JObject members)) = Some (JObject members) →
  ∃ (ttl : json) (w' : world),
    oauth2callback_hubspot request w = (Returned (HTMLResponse success_page), w')
    ∧ redis w' !! ("hubspot_credentials_" +:+ user_id +:+ "_" +:+ org_id)
      = Some (json_dumps (JObject members), ttl)
    ∧ (∀ n, dict_lookup "expires_in" members = Some n → ttl = n)
    ∧ (dict_lookup "expires_in" members = None → ttl = JInt 1800)
    ∧ (∀ token, dict_lookup "access_token" members = Some token →
         ∃ credentials,
           fst (get_hubspot_credentials user_id org_id w') = Returned credentials
           ∧ py_get credentials "access_token" JNull = Returned token).
Proof using Hcode Hgiven Hstate.
  intros Hp Hs Hj Hne Hround.
  rewrite (exchange_decoded r _ Hp Hs Hj). simpl.
  eexists _, _. split; [reflexivity|].
  assert (Hkey : redis (written (redis_key user_id org_id) (json_dumps (JObject members))
                          (default (JInt 1800) (dict_lookup "expires_in" members)) w)
                 !! redis_key user_id org_id
                 = Some (json_dumps (JObject members),
                         default (JInt 1800) (dict_lookup "expires_in" members))).
  { simpl. apply lookup_insert_eq. }
  split; [exact Hkey|].
  split; [by intros n ->|].
  split; [by intros ->|].
  intros token Htok. exists (JObject members).
  rewrite (credentials_parsed _ _ _ _ _ _ Hkey Hne Hround). simpl.
  unfold dict_has. rewrite Htok. done.
Qed.

End Exchange.

Lemma callback_stores_token_response_witness :
  ∃ w' : world,
    oauth2callback_hubspot (H := Sample.hubspot)
      (Sample.callback (Some "c0de") (Some "u1_o1")) Sample.empty_world
    = (Returned (HTMLResponse (success_page (Platform := Sample.hubspot))), w')
    ∧ redis w' !! "hubspot_credentials_u1_o1"
      = Some (Sample.dumps
                (JObject [("access_token", JString "tok123"); ("expires_in", JInt 600)]),
              JInt 600)
    ∧ ∃ credentials,
        fst (get_hubspot_credentials (H := Sample.hubspot) "u1" "o1" w')
        = Returned credentials
        ∧ py_get credentials "access_token" JNull = Returned (JString "tok123").
Proof.
  destruct (callback_stores_token_response (H := Sample.hubspot)
              (Sample.callback (Some "c0de") (Some "u1_o1")) Sample.empty_world
              "c0de" "u1" "o1"
              ltac:(vm_compute; reflexivity) ltac:(discriminate)
              ltac:(vm_compute; reflexivity)
              {| status_code := 200; text := Sample.token_body |}
              [("access_token", JString "tok123"); ("expires_in", JInt 600)]
              ltac:(vm_compute; reflexivity) ltac:(vm_compute; reflexivity)
              ltac:(vm_compute; reflexivity) ltac:(vm_compute; discriminate)
              ltac:(vm_compute; reflexivity))
    as (ttl & w' & Hret & Hkey & Httl & _ & Hget).
  exists w'. split; [exact Hret|].
  rewrite (Httl (JInt 600) eq_refl) in Hkey.
  split; [exact Hkey|].
  exact (Hget (JString "tok123") eq_refl).
Defined.

(** ** Faults that leave a coroutine *)

Section Faults.
Context `{Platform}.

Lemma authorize_returns (user_id org_id : string) (w : world) :
  ∃ url, authorize_hubspot user_id org_id w
         = (Returned (JObject [("authorization_url", JString url)]), w).
Proof. eexists. reflexivity. Qed.

(** Whatever the credentials and the provider, [get_items_hubspot] returns:
    its last handler catches every exception. *)
Lemma get_items_returns (credentials : json) (w : world) :
  ∃ v w', get_items_hubspot credentials w = (Returned v, w').
Proof.
  unfold get_items_hubspot, try_except.
  destruct (fetch_contacts credentials w) as [[v|e] w'].
  - eauto.
  - destruct e; run; eauto.
Qed.

End Faults.

(** C9 fails for two of the four coroutines.  A transport failure of the
    token request leaves [oauth2callback_hubspot] as a [RequestError]; so
    does, as an [AttributeError], a token response that is JSON and not an
    object ([[]]); a stored value that parses to a number ([5]) leaves
    [get_hubspot_credentials] as a [TypeError].  None of the three is turned
    into an error payload. *)
Theorem faults_leave_callback_and_lookup :
  oauth2callback_hubspot
    (H := Sample.platform (TransportFault "connection refused") (Sample.ok "{}"))
    (Sample.callback (Some "c0de") (Some "u1_o1")) Sample.empty_world
  = (Raised (RequestError "connection refused"), Sample.empty_world)
  ∧ oauth2callback_hubspot
      (H := Sample.platform (Sample.ok "[]") (Sample.ok "{}"))
      (Sample.callback (Some "c0de") (Some "u1_o1")) Sample.empty_world
    = (Raised (AttributeError (JArray []) "get"), Sample.empty_world)
  ∧ get_hubspot_credentials (H := Sample.hubspot) "u1" "o1" (Sample.stored "5")
    = (Raised (TypeError NotContainer (JInt 5)), Sample.stored "5").
Proof. repeat split; vm_compute; reflexivity. Qed.

(** ** The state of the authorization URL *)

#[local] Arguments String.append !s1 s2 : simpl nomatch.

Section StringFacts.

Lemma has_app (c : ascii) (a b : string) :
  PyStr.has c (a +:+ b) = PyStr.has c a || PyStr.has c b.
Proof.
  induction a as [|x a IH]; simpl; [done|].
  rewrite IH. by rewrite orb_assoc.
Qed.

Lemma split_without (sep : ascii) (s : string) :
  PyStr.has sep s = false → PyStr.split sep s = [s].
Proof.
  induction s as [|x s IH]; simpl; [done|].
  intros [Hx Hs]%orb_false_iff. rewrite Hx, (IH Hs). done.
Qed.

Lemma split_at (sep : ascii) (s1 s2 : string) :
  PyStr.has sep s1 = false →
  PyStr.split sep (s1 +:+ String sep s2) = s1 :: PyStr.split sep s2.
Proof.
  induction s1 as [|x s1 IH]; simpl.
  - intros _. by rewrite Ascii.eqb_refl.
  - intros [Hx Hs]%orb_false_iff. rewrite Hx, (IH Hs). done.
Qed.

Lemma replace_without (old : ascii) (new s : string) :
  PyStr.has old s = false → PyStr.replace old new s = s.
Proof.
  induction s as [|x s IH]; simpl; [done|].
  intros [Hx Hs]%orb_false_iff. rewrite Hx, (IH Hs). done.
Qed.

Lemma before_without (c : ascii) (s : string) :
  PyStr.has c s = false → Url.before c s = s.
Proof.
  induction s as [|x s IH]; simpl; [done|].
  intros [Hx Hs]%orb_false_iff. rewrite Hx, (IH Hs). done.
Qed.

Lemma before_at (c : ascii) (s1 s2 : string) :
  PyStr.has c s1 = false → Url.before c (s1 +:+ String c s2) = s1.
Proof.
  induction s1 as [|x s1 IH]; simpl.
  - intros _. by rewrite Ascii.eqb_refl.
  - intros [Hx Hs]%orb_false_iff. rewrite Hx, (IH Hs). done.
Qed.

Lemma after_at (c : ascii) (s1 s2 : string) :
  PyStr.has c s1 = false → Url.after c (s1 +:+ String c s2) = Some s2.
Proof.
  induction s1 as [|x s1 IH]; simpl.
  - intros _. by rewrite Ascii.eqb_refl.
  - intros [Hx Hs]%orb_false_iff. rewrite Hx. by apply IH.
Qed.

Lemma unquote_without (s : string) :
  PyStr.has "%" s = false → Url.unquote s = s.
Proof.
  induction s as [|x s IH]; simpl; [done|].
  intros [Hx Hs]%orb_false_iff. rewrite Hx, (IH Hs). done.
Qed.

Lemma unquote_plus_without (s : string) :
  PyStr.has "%" s = false → PyStr.has "+" s = false → Url.unquote_plus s = s.
Proof.
  intros Hp Hq. unfold Url.unquote_plus.
  rewrite (replace_without _ _ _ Hq). by apply unquote_without.
Qed.

Lemma field_named (name value : string) :
  PyStr.has "=" name = false →
  Url.field (name +:+ String "=" value)
  = if PyStr.nonempty value
    then Some (Url.unquote_plus name, Url.unquote_plus value)
    else None.
Proof.
  intros Hn. unfold Url.field. by rewrite (after_at _ _ _ Hn), (before_at _ _ _ Hn).
Qed.

Lemma free_of_app (cs1 cs2 s : string) :
  PyStr.free_of (cs1 +:+ cs2) s = PyStr.free_of cs1 s && PyStr.free_of cs2 s.
Proof.
  induction cs1 as [|c cs1 IH]; simpl; [done|]. by rewrite IH, andb_assoc.
Qed.

Lemma remove_unsafe_app (a b : string) :
  Url.remove_unsafe (a +:+ b) = Url.remove_unsafe a +:+ Url.remove_unsafe b.
Proof.
  induction a as [|x a IH]; simpl; [done|].
  rewrite IH. by case_match.
Qed.

Lemma has_remove_unsafe (c : ascii) (s : string) :
  PyStr.has c s = false → PyStr.has c (Url.remove_unsafe s) = false.
Proof.
  induction s as [|x s IH]; simpl; [done|].
  intros [Hx Hs]%orb_false_iff.
  case_match; simpl; [by apply IH|]. by rewrite Hx, IH.
Qed.

Lemma free_of_tail (cs : string) (x : ascii) (s : string) :
  PyStr.free_of cs (String x s) = true → PyStr.free_of cs s = true.
Proof.
  induction cs as [|c cs IH]; simpl; [done|].
  rewrite !andb_true_iff, !negb_true_iff.
  intros [[_ Hs]%orb_false_iff Hrest]. auto.
Qed.

Lemma remove_unsafe_without (s : string) :
  PyStr.free_of Url.unsafe s = true → Url.remove_unsafe s = s.
Proof.
  induction s as [|x s IH]; intros Hfree; [done|].
  assert (Hx : PyStr.has x Url.unsafe = false).
  { destruct (PyStr.has x Url.unsafe) eqn:Hin; [exfalso|done].
    pose proof Hfree as Hhead.
    unfold Url.unsafe in Hin, Hhead. cbn [PyStr.has PyStr.free_of] in Hin, Hhead.
    rewrite !andb_true_iff, !negb_true_iff, !orb_false_iff in Hhead.
    destruct Hhead as ([Htab _] & [Hlf _] & [Hcr _] & _).
    rewrite !orb_true_iff in Hin.
    destruct Hin as [Hin|[Hin|[Hin|Hin]]]; try discriminate;
      apply Ascii.eqb_eq in Hin; subst x;
      rewrite Ascii.eqb_refl in *; discriminate. }
  cbn [Url.remove_unsafe]. rewrite Hx. f_equal. apply IH. by eapply free_of_tail.
Qed.

(** The state survives the split: [f"{user_id}_{org_id}".split("_")]. *)
Lemma state_round_trip (user_id org_id : string) :
  PyStr.has "_" user_id = false →
  PyStr.has "_" org_id = false →
  PyStr.split "_" (user_id +:+ "_" +:+ org_id) = [user_id; org_id].
Proof.
  intros Hu Ho. change ("_" +:+ org_id) with (String "_" org_id).
  rewrite (split_at _ _ _ Hu). by rewrite (split_without _ _ Ho).
Qed.

End StringFacts.

Section Authorize.
Context `{Platform}.

Lemma authorize_url (user_id org_id : string) (w : world) :
  authorize_hubspot user_id org_id w
  = (Returned (JObject [("authorization_url",
                         JString (authorization_url user_id org_id))]), w).
Proof. reflexivity. Qed.

Lemma query_of_authorization_url (user_id org_id : string) :
  PyStr.has "#" HUBSPOT_CLIENT_ID = false →
  PyStr.has "#" HUBSPOT_REDIRECT_URI = false →
  PyStr.has "#" user_id = false →
  PyStr.has "#" org_id = false →
  Url.query (authorization_url user_id org_id)
  = ("client_id" +:+ String "=" (Url.remove_unsafe HUBSPOT_CLIENT_ID)) +:+ String "&" (
    ("redirect_uri" +:+ String "=" (Url.remove_unsafe HUBSPOT_REDIRECT_URI))
    +:+ String "&" (
    ("scope" +:+ String "=" "crm.objects.contacts.read%20crm.objects.contacts.write")
    +:+ String "&" (
    "state" +:+ String "="
      (Url.remove_unsafe user_id +:+ "_" +:+ Url.remove_unsafe org_id)))).
Proof.
  intros Hc Hr Hu Ho. unfold Url.query, authorization_url.
  repeat (simpl; rewrite ?remove_unsafe_app).
  rewrite before_without.
  - simpl. reflexivity.
  - repeat (rewrite has_app; simpl).
    rewrite !has_remove_unsafe by done. reflexivity.
Qed.

Lemma state_of_authorization_url (user_id org_id : string) :
  PyStr.free_of "&#" HUBSPOT_CLIENT_ID = true →
  PyStr.free_of "&#" HUBSPOT_REDIRECT_URI = true →
  PyStr.free_of ("&#%+" +:+ Url.unsafe) user_id = true →
  PyStr.free_of ("&#%+" +:+ Url.unsafe) org_id = true →
  Url.query_values (authorization_url user_id org_id) "state"
  = [user_id +:+ "_" +:+ org_id].
Proof.
  intros Hc Hr Hu Ho.
  rewrite free_of_app in Hu, Ho.
  apply andb_true_iff in Hu as [Hu Hus], Ho as [Ho Hos].
  simpl in Hc, Hr, Hu, Ho.
  apply andb_true_iff in Hc as [Hc [Hc' _]%andb_true_iff].
  apply andb_true_iff in Hr as [Hr [Hr' _]%andb_true_iff].
  apply andb_true_iff
    in Hu as [Hu [Hu' [Hup [Huq _]%andb_true_iff]%andb_true_iff]%andb_true_iff].
  apply andb_true_iff
    in Ho as [Ho [Ho' [Hop [Hoq _]%andb_true_iff]%andb_true_iff]%andb_true_iff].
  apply negb_true_iff in Hc, Hc', Hr, Hr', Hu, Hu', Hup, Huq, Ho, Ho', Hop, Hoq.
  unfold Url.query_values, Url.parse_qsl.
  rewrite query_of_authorization_url by done.
  rewrite (remove_unsafe_without _ Hus), (remove_unsafe_without _ Hos).
  rewrite split_at
    by (rewrite has_app; simpl; rewrite has_remove_unsafe by done; reflexivity).
  rewrite split_at
    by (rewrite has_app; simpl; rewrite has_remove_unsafe by done; reflexivity).
  rewrite split_at by reflexivity.
  rewrite split_without
    by (rewrite has_app; simpl; rewrite !has_app; simpl; rewrite Hu, Ho; reflexivity).
  cbn [omap list_omap].
  rewrite !field_named by reflexivity.
  assert (Hstate : PyStr.nonempty (user_id +:+ "_" +:+ org_id) = true)
    by (by destruct user_id).
  rewrite Hstate.
  rewrite (unquote_plus_without (user_id +:+ "_" +:+ org_id))
    by (rewrite !has_app; simpl; rewrite ?Hup, ?Hop, ?Huq, ?Hoq; reflexivity).
  destruct (PyStr.nonempty (Url.remove_unsafe HUBSPOT_CLIENT_ID)),
           (PyStr.nonempty (Url.remove_unsafe HUBSPOT_REDIRECT_URI));
    reflexivity.
Qed.

(** C2, as amended: when the two identifiers hold none of the characters
    [_], [&], [#], [%], [+], TAB, LF and CR, and the client id and the
    redirect URI of the configuration hold neither [&] nor [#], the URL
    [authorize_hubspot] returns has exactly one [state] query parameter, and
    splitting it on the underscore gives back the pair of identifiers. *)
Theorem state_parameter_round_trip (user_id org_id : string) (w : world) :
  PyStr.free_of ("_&#%+" +:+ Url.unsafe) user_id = true →
  PyStr.free_of ("_&#%+" +:+ Url.unsafe) org_id = true →
  PyStr.free_of "&#" HUBSPOT_CLIENT_ID = true →
  PyStr.free_of "&#" HUBSPOT_REDIRECT_URI = true →
  ∃ url state,
    authorize_hubspot user_id org_id w
    = (Returned (JObject [("authorization_url", JString url)]), w)
    ∧ Url.query_values url "state" = [state]
    ∧ PyStr.split "_" state = [user_id; org_id].
Proof.
  intros Hu Ho Hc Hr.
  exists (authorization_url user_id org_id), (user_id +:+ "_" +:+ org_id).
  split; [apply authorize_url|].
  change ("_&#%+" +:+ Url.unsafe) with (String "_" ("&#%+" +:+ Url.unsafe)) in Hu, Ho.
  simpl in Hu, Ho. apply andb_true_iff in Hu as [Hu Hu'], Ho as [Ho Ho'].
  apply negb_true_iff in Hu, Ho.
  split; [by apply state_of_authorization_url|].
  by apply state_round_trip.
Qed.

End Authorize.

Lemma state_parameter_round_trip_witness :
  ∃ url state,
    authorize_hubspot (H := Sample.hubspot) "u1" "o1" Sample.empty_world
    = (Returned (JObject [("authorization_url", JString url)]), Sample.empty_world)
    ∧ Url.query_values url "state" = [state]
    ∧ PyStr.split "_" state = ["u1"; "o1"].
Proof.
  apply (state_parameter_round_trip (H := Sample.hubspot) "u1" "o1" Sample.empty_world);
    vm_compute; reflexivity.
Defined.

(** C2, as stated, fails for an identifier that holds [&]: for the pair
    ([a&b], [c]), neither empty nor holding an underscore, the [state]
    parameter of the URL is [a], which does not split into the pair. *)
Lemma state_parameter_cut_at_ampersand :
  PyStr.has "_" "a&b" = false
  ∧ PyStr.has "_" "c" = false
  ∧ fst (authorize_hubspot (H := Sample.hubspot) "a&b" "c" Sample.empty_world)
    = Returned (JObject [("authorization_url",
         JString ("https://app.hubspot.com/oauth/authorize?client_id=client-id"
                  +:+ "&redirect_uri=http://localhost:8000/integrations/hubspot/oauth2callback"
                  +:+ "&scope=crm.objects.contacts.read%20crm.objects.contacts.write"
                  +:+ "&state=a&b_c"))])
  ∧ Url.query_values (authorization_url (H := Sample.hubspot) "a&b" "c") "state" = ["a"]
  ∧ PyStr.split "_" "a" ≠ ["a&b"; "c"].
Proof.
  split; [reflexivity|]. split; [reflexivity|].
  split; [vm_compute; reflexivity|].
  split; [vm_compute; reflexivity|].
  vm_compute. discriminate.
Qed.

(** ** Normalising the listing *)

Section Fetch.
Context `{Platform}.

Lemma collect_items_spec (contacts : list json) (acc items : list IntegrationItem.t) :
  collect_items contacts acc = Returned items
  ↔ ∃ new, Forall2 normalises contacts new ∧ items = (acc ++ new)%list.
Proof.
  revert acc. induction contacts as [|contact contacts IH]; intros acc; simpl.
  - split.
    + intros [= <-]. exists []. split; [constructor|]. by rewrite app_nil_r.
    + intros (new & Hnew & ->). inversion Hnew. by rewrite app_nil_r.
  - unfold mbind, outcome_bind at 1.
    destruct (contact_to_item contact) as [item|e] eqn:Hitem.
    + rewrite IH. split.
      * intros (new & Hnew & ->). exists (item :: new).
        split; [by constructor|]. by rewrite <- app_assoc.
      * intros (new & Hnew & ->). inversion Hnew as [|? item' ? new' Hi Hrest]; subst.
        unfold normalises in Hi. rewrite Hitem in Hi. injection Hi as <-.
        exists new'. split; [done|]. by rewrite <- app_assoc.
    + split; [discriminate|].
      intros (new & Hnew & _). inversion Hnew as [|? item' ? new' Hi Hrest]; subst.
      unfold normalises in Hi. rewrite Hitem in Hi. discriminate.
Qed.

Lemma collect_items_all (contacts : list json) (acc : list IntegrationItem.t) :
  Forall (λ contact, ∃ item, contact_to_item contact = Returned item) contacts →
  ∃ items, collect_items contacts acc = Returned items.
Proof.
  intros Hall. revert acc. induction Hall as [|contact contacts [item Hitem] _ IH];
    intros acc; simpl.
  - eauto.
  - unfold mbind, outcome_bind at 1. rewrite Hitem. apply IH.
Qed.

(** The record an item is built from is kept in its [raw_data]. *)
Lemma contact_to_item_raw_data (contact : json) (item : IntegrationItem.t) :
  contact_to_item contact = Returned item → IntegrationItem.raw_data item = contact.
Proof.
  unfold contact_to_item. intros Hitem.
  destruct contact; try discriminate. simpl in Hitem.
  destruct (default (JObject []) (dict_lookup "properties" members)) as [| | | | | |props];
    try discriminate.
  simpl in Hitem.
  destruct (parse_timestamp (JObject props) "createdate"); try discriminate.
  destruct (parse_timestamp (JObject props) "lastmodifieddate"); try discriminate.
  simpl in Hitem. by injection Hitem as <-.
Qed.

(** Takes apart a hypothesis [contact_to_item contact = Returned item]: the
    record and its properties are dicts, both time stamps were read. *)
Ltac invert_item Hitem members props Hprops :=
  unfold contact_to_item in Hitem;
  match type of Hitem with
  | context [py_get ?contact "properties" _] =>
      destruct contact as [| | | | | |members]; try discriminate
  end;
  simpl in Hitem;
  match type of Hitem with
  | context [default (JObject []) ?found] =>
      destruct (default (JObject []) found) as [| | | | | |props] eqn:Hprops;
      try discriminate
  end;
  simpl in Hitem;
  match type of Hitem with
  | context [parse_timestamp ?p "createdate"] =>
      destruct (parse_timestamp p "createdate") eqn:?Hcreated; try discriminate
  end;
  match type of Hitem with
  | context [parse_timestamp ?p "lastmodifieddate"] =>
      destruct (parse_timestamp p "lastmodifieddate") eqn:?Hmodified; try discriminate
  end;
  simpl in Hitem; injection Hitem as <-.

Lemma contact_to_item_metadata_keys (contact : json) (item : IntegrationItem.t) :
  contact_to_item contact = Returned item →
  (IntegrationItem.metadata item).*1 = metadata_keys.
Proof. intros Hitem. invert_item Hitem members props Hprops. reflexivity. Qed.

Lemma contact_to_item_description (contact : json) (item : IntegrationItem.t) :
  contact_to_item contact = Returned item →
  ∃ props,
    py_get contact "properties" (JObject []) = Returned (JObject props)
    ∧ dict_lookup "description" (IntegrationItem.metadata item)
      = Some (JString ("Contact at " +:+
               py_str (default (JString "No Company") (dict_lookup "company" props)))).
Proof.
  intros Hitem. invert_item Hitem members props Hprops.
  exists props. simpl. rewrite Hprops. done.
Qed.

Lemma contact_to_item_hubspot_id (contact : json) (item : IntegrationItem.t) :
  contact_to_item contact = Returned item →
  py_in "id" contact = Returned false →
  dict_lookup "hubspot_id" (IntegrationItem.metadata item) = Some JNull.
Proof.
  intros Hitem. invert_item Hitem members props Hprops. simpl. unfold dict_has.
  destruct (dict_lookup "id" members); [discriminate|done].
Qed.

Lemma contact_to_item_absent_property
  (contact record_props : json) (item : IntegrationItem.t) (key property : string) :
  contact_to_item contact = Returned item →
  py_get contact "properties" (JObject []) = Returned record_props →
  (key, property) ∈ metadata_sources →
  py_in property record_props = Returned false →
  dict_lookup key (IntegrationItem.metadata item) = Some JNull.
Proof.
  intros Hitem Hget Hsrc Hin. invert_item Hitem members props Hprops.
  simpl in Hget. rewrite Hprops in Hget. injection Hget as <-.
  simpl in Hin. injection Hin as Hin. unfold dict_has in Hin.
  destruct (dict_lookup property props) eqn:Hnone; [discriminate|clear Hin].
  unfold metadata_sources in Hsrc.
  repeat (apply elem_of_cons in Hsrc as [Hsrc|Hsrc];
          [injection Hsrc as -> ->; simpl; by rewrite Hnone|]).
  by apply elem_of_nil in Hsrc.
Qed.

Lemma on_fetch_error_dict (e : exn) (w : world) :
  ∃ d w', on_fetch_error e w = (Returned (ItemsDict d), w').
Proof. destruct e; unfold on_fetch_error; run; eauto. Qed.

#[local] Arguments on_fetch_error : simpl never.

(** The fetch, once the listing has arrived and its records are known. *)
Lemma get_items_listing
  (credentials credentials_dict access_token data results : json)
  (r : response) (contacts : list json) (w : world) :
  load_credentials credentials = Returned credentials_dict →
  py_get credentials_dict "access_token" JNull = Returned access_token →
  truthy access_token = true →
  provider (listing_request access_token) = Reply r →
  is_success r = true →
  json_loads (text r) = Some data →
  py_get data "results" (JArray []) = Returned results →
  py_iter results = Returned contacts →
  get_items_hubspot credentials w
  = match collect_items contacts [] with
    | Returned items =>
        (Returned (ItemList items),
         logged INFO ("Retrieved " +:+ pretty (length items)
                      +:+ " contacts from HubSpot") w)
    | Raised e => on_fetch_error e w
    end.
Proof.
  intros Hload Htoken Htruthy Hreply Hok Hdata Hresults Hiter.
  unfold get_items_hubspot, fetch_contacts, send, raise_for_status, response_json.
  run. rewrite Hload. simpl. rewrite Htoken. simpl. rewrite Htruthy. simpl.
  rewrite Hreply. simpl. rewrite Hok. simpl. rewrite Hdata. simpl.
  rewrite Hresults. simpl. rewrite Hiter. simpl.
  destruct (collect_items contacts []); reflexivity.
Qed.

(** A fetch that returns a list has gone all the way: the credential held a
    token, the provider answered with a listing, every record was
    normalised. *)
Lemma get_items_list_inv (credentials : json) (items : list IntegrationItem.t) (w w' : world) :
  get_items_hubspot credentials w = (Returned (ItemList items), w') →
  ∃ credentials_dict access_token r data results contacts,
    load_credentials credentials = Returned credentials_dict
    ∧ py_get credentials_dict "access_token" JNull = Returned access_token
    ∧ truthy access_token = true
    ∧ provider (listing_request access_token) = Reply r
    ∧ is_success r = true
    ∧ json_loads (text r) = Some data
    ∧ py_get data "results" (JArray []) = Returned results
    ∧ py_iter results = Returned contacts
    ∧ collect_items contacts [] = Returned items.
Proof.
  unfold get_items_hubspot, fetch_contacts, send, raise_for_status, response_json.
  run. intros Hrun.
  assert (Hdict : ∀ e w1, on_fetch_error e w1 ≠ (Returned (ItemList items), w')).
  { intros e w1 He. destruct (on_fetch_error_dict e w1) as (d & w2 & Hd). congruence. }
  destruct (load_credentials credentials) as [credentials_dict|e] eqn:Hload;
    simpl in Hrun; [|by apply Hdict in Hrun].
  destruct (py_get credentials_dict "access_token" JNull) as [access_token|e] eqn:Htoken;
    simpl in Hrun; [|by apply Hdict in Hrun].
  destruct (truthy access_token) eqn:Htruthy; simpl in Hrun; [|discriminate].
  destruct (provider (listing_request access_token)) as [detail|r] eqn:Hreply;
    simpl in Hrun; [by apply Hdict in Hrun|].
  destruct (is_success r) eqn:Hok; simpl in Hrun; [|by apply Hdict in Hrun].
  destruct (json_loads (text r)) as [data|] eqn:Hdata;
    simpl in Hrun; [|by apply Hdict in Hrun].
  destruct (py_get data "results" (JArray [])) as [results|e] eqn:Hresults;
    simpl in Hrun; [|by apply Hdict in Hrun].
  destruct (py_iter results) as [contacts|e] eqn:Hiter;
    simpl in Hrun; [|by apply Hdict in Hrun].
  destruct (collect_items contacts []) as [found|e] eqn:Hcollect;
    simpl in Hrun; [|by apply Hdict in Hrun].
  injection Hrun as <- _.
  by exists credentials_dict, access_token, r, data, results, contacts.
Qed.

(** Every item of a returned list is what the loop body makes of a record
    of the listing. *)
Lemma get_items_member (credentials : json) (items : list IntegrationItem.t)
  (w w' : world) (item : IntegrationItem.t) :
  get_items_hubspot credentials w = (Returned (ItemList items), w') →
  item ∈ items →
  ∃ contact, contact_to_item contact = Returned item.
Proof.
  intros Hrun Hitem.
  destruct (get_items_list_inv _ _ _ _ Hrun)
    as (_ & _ & _ & _ & _ & contacts & _ & _ & _ & _ & _ & _ & _ & _ & Hcollect).
  apply collect_items_spec in Hcollect as (new & Hnew & ->). simpl in Hitem.
  apply list_elem_of_lookup in Hitem as [i Hi].
  destruct (Forall2_lookup_r _ _ _ _ _ Hnew Hi) as (contact & _ & Hc).
  by exists contact.
Qed.



(** C10: every item of a list [get_items_hubspot] returns has the sixteen
    keys of the literal as the keys of its [metadata], whatever the record
    holds; a key copied from a property the record lacks is there with the
    value null, and so is [hubspot_id] for a record without [id]. *)
Theorem metadata_keys_fixed
  (credentials : json) (w w' : world) (items : list IntegrationItem.t)
  (item : IntegrationItem.t) :
  get_items_hubspot credentials w = (Returned (ItemList items), w') →
  item ∈ items →
  (IntegrationItem.metadata item).*1 = metadata_keys
  ∧ (∀ record_props key property,
       py_get (IntegrationItem.raw_data item) "properties" (JObject [])
       = Returned record_props →
       (key, property) ∈ metadata_sources →
       py_in property record_props = Returned false →
       dict_lookup key (IntegrationItem.metadata item) = Some JNull)
  ∧ (py_in "id" (IntegrationItem.raw_data item) = Returned false →
       dict_lookup "hubspot_id" (IntegrationItem.metadata item) = Some JNull).
Proof.
  intros Hrun Hitem.
  destruct (get_items_member _ _ _ _ _ Hrun Hitem) as [contact Hcontact].
  rewrite (contact_to_item_raw_data _ _ Hcontact).
  split; [by eapply contact_to_item_metadata_keys|].
  split.
  - intros record_props key property. by apply contact_to_item_absent_property.
  - by apply contact_to_item_hubspot_id.
Qed.

(** A time stamp whose property the record lacks is [None]. *)
Lemma parse_timestamp_absent (props : json) (key : string) :
  py_in key props = Returned false → parse_timestamp props key = Returned None.
Proof. intros Hin. unfold parse_timestamp. by rewrite Hin. Qed.

(** A time stamp [fromisoformat] rejects raises [ValueError]. *)
Lemma parse_timestamp_rejected (members : list (string * json)) (key raw : string) :
  dict_lookup key members = Some (JString raw) →
  fromisoformat (PyStr.replace "Z" "+00:00" raw) = None →
  parse_timestamp (JObject members) key
  = Raised (ValueError (PyStr.replace "Z" "+00:00" raw)).
Proof.
  intros Hkey Hiso. unfold parse_timestamp, py_fromisoformat. simpl.
  unfold dict_has. rewrite Hkey. simpl. by rewrite Hiso.
Qed.

(** The time stamp of an item is [None] when the record lacks the
    property, whatever the other property holds. *)
Lemma absent_timestamps_are_none
  (contact record_props : json) (item : IntegrationItem.t) :
  contact_to_item contact = Returned item →
  py_get contact "properties" (JObject []) = Returned record_props →
  (py_in "createdate" record_props = Returned false →
     IntegrationItem.creation_time item = None)
  ∧ (py_in "lastmodifieddate" record_props = Returned false →
     IntegrationItem.last_modified_time item = None).
Proof.
  intros Hitem Hget. invert_item Hitem members props Hprops.
  simpl in Hget. rewrite Hprops in Hget. injection Hget as <-. simpl.
  split; intros Hin.
  - rewrite (parse_timestamp_absent (JObject props) "createdate" Hin) in Hcreated.
    by injection Hcreated as <-.
  - rewrite (parse_timestamp_absent (JObject props) "lastmodifieddate" Hin) in Hmodified.
    by injection Hmodified as <-.
Qed.

(** A record with a time stamp [fromisoformat] rejects is not normalised. *)
Lemma rejected_timestamp_raises
  (contact : json) (record_props : list (string * json)) (key raw : string) :
  py_get contact "properties" (JObject []) = Returned (JObject record_props) →
  key = "createdate" ∨ key = "lastmodifieddate" →
  dict_lookup key record_props = Some (JString raw) →
  fromisoformat (PyStr.replace "Z" "+00:00" raw) = None →
  ∀ item, contact_to_item contact ≠ Returned item.
Proof.
  intros Hget Hkey Hraw Hiso item Hitem. invert_item Hitem members props Hprops.
  simpl in Hget. rewrite Hprops in Hget. injection Hget as <-.
  destruct Hkey as [-> | ->].
  - rewrite (parse_timestamp_rejected _ _ _ Hraw Hiso) in Hcreated. discriminate.
  - rewrite (parse_timestamp_rejected _ _ _ Hraw Hiso) in Hmodified. discriminate.
Qed.

(** One such record anywhere in the listing, and the fetch returns an error
    dict instead of a list. *)
Lemma rejected_timestamp_no_list
  (credentials credentials_dict access_token data results : json)
  (r : response) (contacts : list json) (w : world)
  (contact : json) (record_props : list (string * json)) (key raw : string) :
  load_credentials credentials = Returned credentials_dict →
  py_get credentials_dict "access_token" JNull = Returned access_token →
  truthy access_token = true →
  provider (listing_request access_token) = Reply r →
  is_success r = true →
  json_loads (text r) = Some data →
  py_get data "results" (JArray []) = Returned results →
  py_iter results = Returned contacts →
  contact ∈ contacts →
  py_get contact "properties" (JObject []) = Returned (JObject record_props) →
  key = "createdate" ∨ key = "lastmodifieddate" →
  dict_lookup key record_props = Some (JString raw) →
  fromisoformat (PyStr.replace "Z" "+00:00" raw) = None →
  ∃ d w', get_items_hubspot credentials w = (Returned (ItemsDict d), w').
Proof.
  intros Hload Htoken Htruthy Hreply Hok Hdata Hresults Hiter Hin Hget Hkey Hraw Hiso.
  rewrite (get_items_listing _ _ _ _ _ _ _ w Hload Htoken Htruthy Hreply Hok Hdata
             Hresults Hiter).
  destruct (collect_items contacts []) as [found|e] eqn:Hcollect.
  - exfalso. apply collect_items_spec in Hcollect as (new & Hnew & _).
    apply list_elem_of_lookup in Hin as [i Hi].
    destruct (Forall2_lookup_l _ _ _ _ _ Hnew Hi) as (item & _ & Hitem).
    by eapply rejected_timestamp_raises.
  - apply on_fetch_error_dict.
Qed.

End Fetch.

Example sample_records_decode :
  Sample.loads Sample.jane = Some Sample.jane_record
  ∧ Sample.loads Sample.sam = Some Sample.sam_record
  ∧ Sample.loads Sample.kim = Some Sample.kim_record.
Proof. repeat split; vm_compute; reflexivity. Qed.

(** The example of section 8: one record, one item. *)
Example fetch_jane :
  ∃ item,
    fst (get_items_hubspot (H := Sample.hubspot) Sample.credential Sample.empty_world)
    = Returned (ItemList [item])
    ∧ IntegrationItem.name item = "Jane Doe"
    ∧ dict_lookup "company" (IntegrationItem.metadata item) = Some (JString "Acme")
    ∧ IntegrationItem.creation_time item
      = Some {| year := 2023; month := 1; day := 1; hour := 0; minute := 0;
                second := 0; microsecond := 0; utcoffset := Some 0 |}
    ∧ IntegrationItem.last_modified_time item = None
    ∧ dict_lookup "description" (IntegrationItem.metadata item)
      = Some (JString "Contact at Acme").
Proof. eexists. repeat split; vm_compute; reflexivity. Qed.

Lemma metadata_keys_fixed_witness :
  ∃ item,
    fst (get_items_hubspot (H := Sample.hubspot) Sample.credential Sample.empty_world)
    = Returned (ItemList [item])
    ∧ (IntegrationItem.metadata item).*1 = metadata_keys
    ∧ dict_lookup "website" (IntegrationItem.metadata item) = Some JNull.
Proof.
  eexists. split; [vm_compute; reflexivity|].
  edestruct (metadata_keys_fixed (H := Sample.hubspot)
               Sample.credential Sample.empty_world) as (Hkeys & Habsent & _).
  - vm_compute. reflexivity.
  - apply list_elem_of_singleton. reflexivity.
  - split; [exact Hkeys|].
    eapply (Habsent _ "website" "website").
    + vm_compute. reflexivity.
    + vm_compute. do 3 right. left.
    + vm_compute. reflexivity.
Defined.

(** ** Where the fetch departs from its description *)

Section Description.
Context `{Platform}.

(** The description of an item: the company when the record has the
    property and it is a string, [No Company] when the record lacks the
    property. *)
Lemma description_of_company (contact : json) (item : IntegrationItem.t)
  (members props : list (string * json)) :
  contact_to_item contact = Returned item →
  contact = JObject members →
  default (JObject []) (dict_lookup "properties" members) = JObject props →
  (∀ company, dict_lookup "company" props = Some (JString company) →
     dict_lookup "description" (IntegrationItem.metadata item)
     = Some (JString ("Contact at " +:+ company)))
  ∧ (dict_lookup "company" props = None →
     dict_lookup "description" (IntegrationItem.metadata item)
     = Some (JString "Contact at No Company")).
Proof.
  intros Hitem -> Hprops.
  destruct (contact_to_item_description _ _ Hitem) as (props' & Hget & ->).
  simpl in Hget. rewrite Hprops in Hget. injection Hget as <-.
  split.
  - by intros company ->.
  - by intros ->.
Qed.

End Description.

(** C7 fails on a record whose [company] property is there with the value
    null, as HubSpot returns a property that was asked for and is not set:
    the description is [Contact at None], not [Contact at No Company]. *)
Theorem null_company_description :
  ∃ item,
    fst (get_items_hubspot
           (H := Sample.platform (Sample.ok Sample.token_body)
                   (Sample.ok (Sample.listing_of [Sample.sam])))
           Sample.credential Sample.empty_world)
    = Returned (ItemList [item])
    ∧ IntegrationItem.raw_data item = Sample.sam_record
    ∧ dict_lookup "company" (IntegrationItem.metadata item) = Some JNull
    ∧ dict_lookup "description" (IntegrationItem.metadata item)
      = Some (JString "Contact at None").
Proof. eexists. repeat split; vm_compute; reflexivity. Qed.

(** C6 fails on a listing with two records, the second with a creation
    date that is not a date and a modification date that is one: the
    [ValueError] of the first field ends the whole fetch, which returns an
    error dict and no item, although the first record alone is normalised
    and the second field alone is read. *)
Theorem rejected_timestamp_ends_fetch :
  get_items_hubspot
    (H := Sample.platform (Sample.ok Sample.token_body)
            (Sample.ok (Sample.listing_of [Sample.jane; Sample.kim])))
    Sample.credential Sample.empty_world
  = (Returned (ItemsDict (error_dict "Invalid isoformat string: 'not-a-date'")),
     logged ERROR "Error in get_items_hubspot: Invalid isoformat string: 'not-a-date'"
       Sample.empty_world)
  ∧ (∃ item, contact_to_item (H := Sample.hubspot) Sample.jane_record = Returned item)
  ∧ contact_to_item (H := Sample.hubspot) Sample.kim_record
    = Raised (ValueError "not-a-date")
  ∧ parse_timestamp (H := Sample.hubspot)
      (JObject [("lastmodifieddate", JString "2023-01-02T00:00:00Z")]) "lastmodifieddate"
    = Returned (Some {| year := 2023; month := 1; day := 2; hour := 0; minute := 0;
                        second := 0; microsecond := 0; utcoffset := Some 0 |}).
Proof.
  split; [vm_compute; reflexivity|].
  split; [eexists; vm_compute; reflexivity|].
  split; vm_compute; reflexivity.
Qed.

(** * Further properties of the module *)

(** ** Splitting the state *)

Section SplitFacts.

Lemma split_not_nil (sep : ascii) (s : string) : PyStr.split sep s ≠ [].
Proof.
  destruct s as [|a s]; simpl; [done|].
  destruct (Ascii.eqb a sep); [done|]. by destruct (PyStr.split sep s).
Qed.

Lemma split_length (sep : ascii) (s : string) :
  length (PyStr.split sep s) = S (PyStr.count sep s).
Proof.
  induction s as [|a s IH]; simpl; [done|].
  destruct (Ascii.eqb a sep); simpl; [by rewrite IH|].
  destruct (PyStr.split sep s); simpl in *; done.
Qed.

Lemma count_app (c : ascii) (a b : string) :
  PyStr.count c (a +:+ b) = (PyStr.count c a + PyStr.count c b)%nat.
Proof.
  induction a as [|x a IH]; simpl; [done|].
  destruct (Ascii.eqb x c); simpl; by rewrite IH.
Qed.

Lemma count_has (c : ascii) (s : string) :
  PyStr.has c s = true → (0 < PyStr.count c s)%nat.
Proof.
  induction s as [|x s IH]; simpl; [done|].
  destruct (Ascii.eqb x c); simpl; [lia|exact IH].
Qed.

Lemma split_one_inv (sep : ascii) (s piece : string) :
  PyStr.split sep s = [piece] → s = piece ∧ PyStr.has sep piece = false.
Proof.
  revert piece. induction s as [|a s IH]; intros piece; simpl.
  - by intros [= <-].
  - destruct (Ascii.eqb a sep) eqn:Ha.
    + intros [= _ Hs]. by apply split_not_nil in Hs.
    + destruct (PyStr.split sep s) as [|p ps] eqn:Hs; [by apply split_not_nil in Hs|].
      intros [= <- ->]. destruct (IH p eq_refl) as [-> Hp].
      split; [done|]. simpl. by rewrite Ha.
Qed.

Lemma split_two_inv (sep : ascii) (s left right : string) :
  PyStr.split sep s = [left; right] →
  s = left +:+ String sep right
  ∧ PyStr.has sep left = false ∧ PyStr.has sep right = false.
Proof.
  revert left. induction s as [|a s IH]; intros left; simpl; [done|].
  destruct (Ascii.eqb a sep) eqn:Ha.
  - intros [= <- Hs]. apply split_one_inv in Hs as [-> Hr].
    apply Ascii.eqb_eq in Ha as ->. done.
  - destruct (PyStr.split sep s) as [|p ps] eqn:Hs; [by apply split_not_nil in Hs|].
    intros [= <- ->]. destruct (IH p eq_refl) as (-> & Hp & Hr).
    split; [done|]. split; [|done]. simpl. by rewrite Ha.
Qed.

End SplitFacts.

(** X1: which states the callback takes apart, and into what: [state.split("_")]
    has exactly two parts when and only when the state is [user_id], one
    underscore, [org_id], with no underscore inside either part. *)
Theorem state_unpacking (state user_id org_id : string) :
  PyStr.split "_" state = [user_id; org_id]
  ↔ state = user_id +:+ "_" +:+ org_id
    ∧ PyStr.has "_" user_id = false ∧ PyStr.has "_" org_id = false.
Proof.
  split.
  - intros Hsplit. by apply split_two_inv in Hsplit.
  - intros (-> & Hu & Ho). by apply state_round_trip.
Qed.

(** ** The keys of the store *)

Section Keys.
Context `{Platform}.

Lemma redis_key_state (user_id org_id : string) :
  redis_key user_id org_id = "hubspot_credentials_" +:+ (user_id +:+ "_" +:+ org_id).
Proof. reflexivity. Qed.

Lemma redis_key_inj (user_id org_id user_id' org_id' : string) :
  PyStr.has "_" user_id = false →
  PyStr.has "_" user_id' = false →
  redis_key user_id org_id = redis_key user_id' org_id' →
  user_id = user_id' ∧ org_id = org_id'.
Proof.
  intros Hu Hu' Hkey. rewrite !redis_key_state in Hkey.
  apply (inj (String.app _)) in Hkey.
  assert (Hsplit : PyStr.split "_" (user_id +:+ "_" +:+ org_id)
                   = PyStr.split "_" (user_id' +:+ "_" +:+ org_id')) by by rewrite Hkey.
  change ("_" +:+ org_id) with (String "_" org_id) in *.
  change ("_" +:+ org_id') with (String "_" org_id') in *.
  rewrite !split_at in Hsplit by done. injection Hsplit as -> _.
  split; [done|]. apply (inj (String.app _)) in Hkey. by injection Hkey.
Qed.

Lemma credentials_cases (user_id org_id : string) (w : world) :
  get_hubspot_credentials user_id org_id w
  = match redis w !! redis_key user_id org_id with
    | Some (stored, _) =>
        if PyStr.nonempty stored then
          match json_loads stored with
          | Some v =>
              match py_in "access_token" v with
              | Returned true => (Returned v, w)
              | Returned false => (Returned NoCredentials, w)
              | Raised e => (Raised e, w)
              end
          | None =>
              (Returned NoCredentials,
               logged ERROR "Failed to parse stored HubSpot credentials." w)
          end
        else (Returned NoCredentials, w)
    | None => (Returned NoCredentials, w)
    end.
Proof.
  unfold get_hubspot_credentials. run.
  destruct (redis w !! redis_key user_id org_id) as [[stored ttl]|]; simpl; [|done].
  destruct (PyStr.nonempty stored); [|done].
  destruct (json_loads stored) as [v|]; [|done].
  destruct (py_in "access_token" v) as [[|]|e] eqn:Hin; try done.
  destruct v; simpl in Hin; try discriminate; by simplify_eq.
Qed.

Lemma credentials_frame (user_id org_id : string) (w : world) :
  redis (snd (get_hubspot_credentials user_id org_id w)) = redis w.
Proof.
  rewrite credentials_cases.
  destruct (redis w !! redis_key user_id org_id) as [[stored ttl]|]; [|done].
  destruct (PyStr.nonempty stored); [|done].
  destruct (json_loads stored) as [v|]; [|done].
  by destruct (py_in "access_token" v) as [[|]|e].
Qed.

Lemma credentials_same_entry (user_id org_id : string) (w1 w2 : world) :
  redis w1 !! redis_key user_id org_id = redis w2 !! redis_key user_id org_id →
  fst (get_hubspot_credentials user_id org_id w1)
  = fst (get_hubspot_credentials user_id org_id w2).
Proof.
  intros Hentry. rewrite !credentials_cases, Hentry.
  destruct (redis w2 !! redis_key user_id org_id) as [[stored ttl]|]; [|done].
  destruct (PyStr.nonempty stored); [|done].
  destruct (json_loads stored) as [v|]; [|done].
  by destruct (py_in "access_token" v) as [[|]|e].
Qed.

(** X2: two pairs of identifiers that differ only in where an underscore
    falls share their key: [get_hubspot_credentials] answers for
    ([u_x], [o]) exactly what it answers for ([u], [x_o]). *)
Theorem shifted_underscore_same_credentials (u x o : string) (w : world) :
  redis_key (u +:+ "_" +:+ x) o = redis_key u (x +:+ "_" +:+ o)
  ∧ get_hubspot_credentials (u +:+ "_" +:+ x) o w
    = get_hubspot_credentials u (x +:+ "_" +:+ o) w.
Proof.
  assert (Hkey : redis_key (u +:+ "_" +:+ x) o = redis_key u (x +:+ "_" +:+ o)).
  { unfold redis_key. f_equal. induction u as [|a u IH]; simpl; [done|]. by f_equal. }
  split; [exact Hkey|]. by rewrite !credentials_cases, Hkey.
Qed.

(** X3: [get_hubspot_credentials] never writes the store, and asking again
    gives the same answer. *)
Theorem credentials_lookup_idempotent (user_id org_id : string) (w : world) :
  redis (snd (get_hubspot_credentials user_id org_id w)) = redis w
  ∧ fst (get_hubspot_credentials user_id org_id
           (snd (get_hubspot_credentials user_id org_id w)))
    = fst (get_hubspot_credentials user_id org_id w).
Proof.
  split; [apply credentials_frame|].
  apply credentials_same_entry. by rewrite credentials_frame.
Qed.

(** X4: a stored value that is the empty string counts as no value: the
    answer is the NoCredentials payload, nothing is parsed and nothing is
    logged. *)
Theorem empty_stored_value_is_absent (user_id org_id : string) (ttl : json) (w : world) :
  redis w !! redis_key user_id org_id = Some ("", ttl) →
  get_hubspot_credentials user_id org_id w = (Returned NoCredentials, w).
Proof. intros Hk. rewrite credentials_cases, Hk. reflexivity. Qed.

End Keys.

(** ** The callback and the store *)

Section CallbackStore.
Context `{Platform}.

(** The store after a callback: as before, or with one more entry, under
    the key of the pair the state splits into. *)
Lemma callback_store_cases (request : Request) (w : world) :
  redis (snd (oauth2callback_hubspot request w)) = redis w
  ∨ ∃ user_id org_id value expire,
      PyStr.split "_" (default "" (query_params request !! "state")) = [user_id; org_id]
      ∧ fst (oauth2callback_hubspot request w) = Returned (HTMLResponse success_page)
      ∧ redis (snd (oauth2callback_hubspot request w))
        = <[redis_key user_id org_id := (value, expire)]> (redis w).
Proof.
  unfold oauth2callback_hubspot.
  destruct (code_given (query_params request !! "code")); simpl; [|by left].
  destruct (PyStr.split "_" (default "" (query_params request !! "state")))
    as [|user_id [|org_id [|extra rest]]]; try (by left).
  unfold send, raise_for_status, response_json. run.
  destruct (provider (token_request (default "" (query_params request !! "code"))))
    as [detail|r]; simpl; [by left|].
  destruct (is_success r); simpl; [|by left].
  destruct (json_loads (text r)) as [decoded|]; simpl; [|by left].
  destruct (py_get decoded "expires_in" (JInt 1800)) as [expire|e]; simpl; [|by left].
  right. by exists user_id, org_id, (json_dumps decoded), expire.
Qed.

(** X5: whatever the request and the provider, the callback leaves every
    key of the store alone but [hubspot_credentials_] followed by the state
    as it was received. *)
Theorem callback_touches_only_state_key (request : Request) (w : world) (key : string) :
  key ≠ "hubspot_credentials_" +:+ default "" (query_params request !! "state") →
  redis (snd (oauth2callback_hubspot request w)) !! key = redis w !! key.
Proof.
  intros Hkey.
  destruct (callback_store_cases request w)
    as [->|(user_id & org_id & value & expire & Hsplit & _ & ->)]; [done|].
  apply lookup_insert_ne. intros <-. apply Hkey.
  apply split_two_inv in Hsplit as (-> & _ & _). reflexivity.
Qed.

(** X6: a callback does not change what [get_hubspot_credentials] returns
    for a pair, with no underscore in its user id, other than the one its
    state splits into. *)
Theorem callback_leaves_other_pairs (request : Request) (w : world)
  (user_id org_id : string) :
  PyStr.has "_" user_id = false →
  PyStr.split "_" (default "" (query_params request !! "state")) ≠ [user_id; org_id] →
  fst (get_hubspot_credentials user_id org_id
         (snd (oauth2callback_hubspot request w)))
  = fst (get_hubspot_credentials user_id org_id w).
Proof.
  intros Hu Hother. apply credentials_same_entry.
  destruct (callback_store_cases request w)
    as [->|(user_id' & org_id' & value & expire & Hsplit & _ & ->)]; [done|].
  apply lookup_insert_ne. intros Hsame.
  destruct (split_two_inv _ _ _ _ Hsplit) as (_ & Hu' & _).
  destruct (redis_key_inj _ _ _ _ Hu' Hu Hsame) as [-> ->]. done.
Qed.

(** X7: the store changes only when the callback answers with the
    confirmation page: an error dict or an exception leaves it as it
    was. *)
Theorem callback_writes_only_on_success (request : Request) (w : world) :
  fst (oauth2callback_hubspot request w) ≠ Returned (HTMLResponse success_page) →
  redis (snd (oauth2callback_hubspot request w)) = redis w.
Proof.
  intros Hfail.
  destruct (callback_store_cases request w)
    as [Hsame|(user_id & org_id & value & expire & _ & Hok & _)]; [done|].
  by destruct Hfail.
Qed.

(** X8: an identifier with an underscore in it cannot be authorized: the
    state [authorize_hubspot] builds for such a pair is refused by the
    callback as an invalid state, and nothing is stored. *)
Theorem underscore_in_identifier_is_refused
  (request : Request) (w : world) (code user_id org_id : string) :
  query_params request !! "code" = Some code →
  code ≠ "" →
  query_params request !! "state" = Some (user_id +:+ "_" +:+ org_id) →
  PyStr.has "_" user_id = true ∨ PyStr.has "_" org_id = true →
  oauth2callback_hubspot request w = (Returned (Dict InvalidState), w).
Proof.
  intros Hcode Hgiven Hstate Hunder. apply callback_bad_state.
  - apply code_given_true. eauto.
  - rewrite Hstate. simpl. rewrite split_length, !count_app. simpl.
    destruct Hunder as [Hu|Ho]; apply count_has in Hu || apply count_has in Ho; lia.
Qed.

End CallbackStore.

(** ** The token exchange when it fails *)

Section ExchangeFailures.
Context `{Platform}.

(** X9: a token response outside 2xx: the callback returns the body of the
    response as the error, logs it at level ERROR and stores nothing. *)
Theorem token_exchange_refused
  (request : Request) (w : world) (code user_id org_id : string) (r : response) :
  query_params request !! "code" = Some code →
  code ≠ "" →
  PyStr.split "_" (default "" (query_params request !! "state")) = [user_id; org_id] →
  provider (token_request code) = Reply r →
  is_success r = false →
  oauth2callback_hubspot request w
  = (Returned (Dict (error_dict (text r))),
     {| redis := redis w;
        log := log w ++ [(ERROR, "Failed to retrieve access token: " +:+ text r)] |}).
Proof.
  intros Hcode Hgiven Hstate Hreply Hstatus.
  by rewrite (exchange_status_error _ _ _ _ _ Hcode Hgiven Hstate _ Hreply Hstatus).
Qed.


(** X11: a 2xx token response whose body is JSON and not an object (a list,
    a string, a number, null): [response_json.get] raises [AttributeError],
    no handler of the callback catches it, and nothing is stored or
    logged. *)
Theorem token_exchange_not_an_object
  (request : Request) (w : world) (code user_id org_id : string)
  (r : response) (decoded : json) :
  query_params request !! "code" = Some code →
  code ≠ "" →
  PyStr.split "_" (default "" (query_params request !! "state")) = [user_id; org_id] →
  provider (token_request code) = Reply r →
  is_success r = true →
  json_loads (text r) = Some decoded →
  (∀ members, decoded ≠ JObject members) →
  oauth2callback_hubspot request w = (Raised (AttributeError decoded "get"), w).
Proof.
  intros Hcode Hgiven Hstate Hreply Hstatus Hjson Hshape.
  rewrite (exchange_decoded _ _ _ _ _ Hcode Hgiven Hstate _ _ Hreply Hstatus Hjson).
  destruct decoded; try reflexivity. by destruct (Hshape members).
Qed.

End ExchangeFailures.

(** ** The fetch when it fails *)

Section FetchFailures.
Context `{Platform}.

#[local] Arguments on_fetch_error : simpl never.

(** X12: a credential without a usable token (no [access_token], or one that
    is null, empty, zero or false): the fetch returns the MissingAccessToken
    payload whatever the provider would answer, and logs nothing. *)
Theorem fetch_without_token
  (credentials credentials_dict access_token : json) (w : world) :
  load_credentials credentials = Returned credentials_dict →
  py_get credentials_dict "access_token" JNull = Returned access_token →
  truthy access_token = false →
  get_items_hubspot credentials w = (Returned (ItemsDict MissingAccessToken), w).
Proof.
  intros Hload Htoken Hfalsy. unfold get_items_hubspot, fetch_contacts. run.
  rewrite Hload. simpl. rewrite Htoken. simpl. by rewrite Hfalsy.
Qed.

(** X13: a listing response outside 2xx: the fetch returns the body of the
    response as the error and no item, and logs it at level ERROR. *)
Theorem fetch_refused
  (credentials credentials_dict access_token : json) (r : response) (w : world) :
  load_credentials credentials = Returned credentials_dict →
  py_get credentials_dict "access_token" JNull = Returned access_token →
  truthy access_token = true →
  provider (listing_request access_token) = Reply r →
  is_success r = false →
  get_items_hubspot credentials w
  = (Returned (ItemsDict (error_dict (text r))),
     {| redis := redis w; log := log w ++ [(ERROR, "HubSpot API Error: " +:+ text r)] |}).
Proof.
  intros Hload Htoken Htruthy Hreply Hstatus.
  unfold get_items_hubspot, fetch_contacts, send, raise_for_status. run.
  rewrite Hload. simpl. rewrite Htoken. simpl. rewrite Htruthy. simpl.
  rewrite Hreply. simpl. by rewrite Hstatus.
Qed.

(** X14: a transport failure of the listing request, which would leave the
    callback as an exception, is caught by the fetch: it returns the text of
    the exception as the error and logs it. *)
Theorem fetch_transport_fault
  (credentials credentials_dict access_token : json) (detail : string) (w : world) :
  load_credentials credentials = Returned credentials_dict →
  py_get credentials_dict "access_token" JNull = Returned access_token →
  truthy access_token = true →
  provider (listing_request access_token) = TransportFault detail →
  get_items_hubspot credentials w
  = (Returned (ItemsDict (error_dict (exn_str (RequestError detail)))),
     {| redis := redis w;
        log := log w ++ [(ERROR, "Error in get_items_hubspot: "
                                 +:+ exn_str (RequestError detail))] |}).
Proof.
  intros Hload Htoken Htruthy Hreply.
  unfold get_items_hubspot, fetch_contacts, send. run.
  rewrite Hload. simpl. rewrite Htoken. simpl. rewrite Htruthy. simpl.
  by rewrite Hreply.
Qed.

(** X15: a credential handed over as a string is decoded once: the fetch
    does with the string what it does with the value the string decodes to,
    provided that value is not a string again. *)
Theorem fetch_string_credential (s : string) (v : json) (w : world) :
  json_loads s = Some v →
  (∀ t, v ≠ JString t) →
  get_items_hubspot (JString s) w = get_items_hubspot v w.
Proof.
  intros Hjson Hshape. unfold get_items_hubspot, fetch_contacts. run.
  rewrite Hjson. destruct v as [| | | |t| |]; try reflexivity. by destruct (Hshape t).
Qed.

(** X16: a credential string that is not JSON, and a credential that is not
    a dict: both end in the error payload of the last handler, with the text
    of the exception. *)
Theorem fetch_bad_credential (credentials : json) (w : world) (e : exn) :
  (∃ s, credentials = JString s ∧ json_loads s = None ∧ e = JSONDecodeError s)
  ∨ (∃ credentials_dict,
       load_credentials credentials = Returned credentials_dict
       ∧ (∀ members, credentials_dict ≠ JObject members)
       ∧ e = AttributeError credentials_dict "get") →
  get_items_hubspot credentials w
  = (Returned (ItemsDict (error_dict (exn_str e))),
     {| redis := redis w;
        log := log w ++ [(ERROR, "Error in get_items_hubspot: " +:+ exn_str e)] |}).
Proof.
  intros [(s & -> & Hjson & ->)|(credentials_dict & Hload & Hshape & ->)];
    unfold get_items_hubspot, fetch_contacts; run.
  - by rewrite Hjson.
  - rewrite Hload. simpl.
    destruct credentials_dict; try reflexivity. by destruct (Hshape members).
Qed.

(** The world after a fetch: as before, or with one more record of the
    log. *)
Lemma fetch_world (credentials : json) (w : world) :
  ∃ v, get_items_hubspot credentials w = (Returned v, w)
       ∨ ∃ level msg, get_items_hubspot credentials w = (Returned v, logged level msg w).
Proof.
  assert (Herr : ∀ e, ∃ v level msg, on_fetch_error e w = (Returned v, logged level msg w)).
  { intros e. destruct e; unfold on_fetch_error; run; eauto. }
  unfold get_items_hubspot, fetch_contacts, send, raise_for_status, response_json. run.
  destruct (load_credentials credentials) as [credentials_dict|e]; simpl;
    [|destruct (Herr e) as (v & level & msg & ->); eauto].
  destruct (py_get credentials_dict "access_token" JNull) as [access_token|e]; simpl;
    [|destruct (Herr e) as (v & level & msg & ->); eauto].
  destruct (truthy access_token); simpl; [|eauto].
  destruct (provider (listing_request access_token)) as [detail|r]; simpl;
    [destruct (Herr (RequestError detail)) as (v & level & msg & ->); eauto|].
  destruct (is_success r); simpl;
    [|destruct (Herr (HTTPStatusError r)) as (v & level & msg & ->); eauto].
  destruct (json_loads (text r)) as [data|]; simpl;
    [|destruct (Herr (JSONDecodeError (text r))) as (v & level & msg & ->); eauto].
  destruct (py_get data "results" (JArray [])) as [results|e]; simpl;
    [|destruct (Herr e) as (v & level & msg & ->); eauto].
  destruct (py_iter results) as [contacts|e]; simpl;
    [|destruct (Herr e) as (v & level & msg & ->); eauto].
  destruct (collect_items contacts []) as [items|e]; simpl;
    [eauto|destruct (Herr e) as (v & level & msg & ->); eauto].
Qed.

(** X17: the fetch always returns a value, never writes the store, and adds
    at most one record to the log. *)
Theorem fetch_never_writes (credentials : json) (w : world) :
  ∃ v w',
    get_items_hubspot credentials w = (Returned v, w')
    ∧ redis w' = redis w
    ∧ (log w' = log w ∨ ∃ record, log w' = (log w ++ [record])%list).
Proof.
  destruct (fetch_world credentials w) as (v & [->|(level & msg & ->)]).
  - exists v, w. eauto.
  - exists v, (logged level msg w). simpl. eauto.
Qed.

End FetchFailures.

(** ** Which records are normalised *)

Section Normalisation.
Context `{Platform}.

Lemma parse_timestamp_returns (props : list (string * json)) (key : string) :
  (∃ t, parse_timestamp (JObject props) key = Returned t) ↔ timestamp_readable props key.
Proof.
  unfold parse_timestamp, timestamp_readable, py_fromisoformat. simpl. unfold dict_has.
  destruct (dict_lookup key props) as [v|] eqn:Hv; simpl.
  2:{ split; [done|]. intros _. eauto. }
  destruct v as [| | | |raw| |]; simpl; try (split; [by intros [t Ht]|done]).
  destruct (fromisoformat (PyStr.replace "Z" "+00:00" raw)) as [d|]; simpl.
  - split; eauto.
  - split; [by intros [t Ht]|by intros [d Hd]].
Qed.

(** X18: exactly the records that are normalised: a dict whose [properties]
    (an empty dict when the key is absent) is a dict in which each of
    [createdate] and [lastmodifieddate] is absent or a string
    [fromisoformat] reads.  No other property of the record can make the
    loop fail. *)
Theorem normalised_records (contact : json) :
  (∃ item, contact_to_item contact = Returned item)
  ↔ ∃ members props,
      contact = JObject members
      ∧ default (JObject []) (dict_lookup "properties" members) = JObject props
      ∧ timestamp_readable props "createdate"
      ∧ timestamp_readable props "lastmodifieddate".
Proof.
  split.
  - intros [item Hitem]. unfold contact_to_item in Hitem.
    destruct contact as [| | | | | |members]; try discriminate. simpl in Hitem.
    destruct (default (JObject []) (dict_lookup "properties" members))
      as [| | | | | |props] eqn:Hprops; try discriminate.
    simpl in Hitem.
    destruct (parse_timestamp (JObject props) "createdate") as [created|] eqn:Hc;
      try discriminate.
    destruct (parse_timestamp (JObject props) "lastmodifieddate") as [modified|] eqn:Hm;
      try discriminate.
    exists members, props. repeat split; try done; apply parse_timestamp_returns; eauto.
  - intros (members & props & -> & Hprops & Hc & Hm).
    apply parse_timestamp_returns in Hc as [created Hc], Hm as [modified Hm].
    unfold contact_to_item. simpl. rewrite Hprops. simpl. rewrite Hc, Hm. simpl. eauto.
Qed.

End Normalisation.

(** ** One item per record *)

Section OnePerRecord.
Context `{Platform}.



End OnePerRecord.



(** ** The listing, record by record *)

Section Listing.
Context `{Platform}.

#[local] Arguments on_fetch_error : simpl never.

Lemma collect_items_first_failure
  (good rest : list json) (bad : json) (acc : list IntegrationItem.t) (e : exn) :
  Forall (λ contact, ∃ item, contact_to_item contact = Returned item) good →
  contact_to_item bad = Raised e →
  collect_items (good ++ bad :: rest)%list acc = Raised e.
Proof.
  intros Hgood Hbad. revert acc.
  induction Hgood as [|contact good [item Hitem] _ IH]; intros acc; simpl.
  - unfold mbind, outcome_bind at 1. by rewrite Hbad.
  - unfold mbind, outcome_bind at 1. rewrite Hitem. apply IH.
Qed.

(** The exceptions the loop body raises: never an [HTTPStatusError]. *)
Lemma contact_to_item_raises (contact : json) (e : exn) :
  contact_to_item contact = Raised e → ∀ r, e ≠ HTTPStatusError r.
Proof.
  unfold contact_to_item. intros Hraise r ->.
  destruct contact as [| | | | | |members]; try discriminate. simpl in Hraise.
  destruct (default (JObject []) (dict_lookup "properties" members))
    as [| | | | | |props]; try discriminate.
  simpl in Hraise.
  assert (Hstamp : ∀ key, parse_timestamp (JObject props) key ≠ Raised (HTTPStatusError r)).
  { intros key. unfold parse_timestamp, py_fromisoformat. simpl. unfold dict_has.
    destruct (dict_lookup key props) as [v|]; simpl; [|done].
    destruct v as [| | | |raw| |]; simpl; try done.
    by destruct (fromisoformat (PyStr.replace "Z" "+00:00" raw)). }
  destruct (parse_timestamp (JObject props) "createdate") as [created|e] eqn:Hc.
  - destruct (parse_timestamp (JObject props) "lastmodifieddate") as [modified|e] eqn:Hm;
      simpl in Hraise; [discriminate|].
    injection Hraise as ->. by apply (Hstamp "lastmodifieddate").
  - simpl in Hraise. injection Hraise as ->. by apply (Hstamp "createdate").
Qed.

Lemma fetch_first_failure_aux
  (credentials credentials_dict access_token data results : json)
  (r : response) (good rest : list json) (bad : json) (e : exn) (w : world) :
  load_credentials credentials = Returned credentials_dict →
  py_get credentials_dict "access_token" JNull = Returned access_token →
  truthy access_token = true →
  provider (listing_request access_token) = Reply r →
  is_success r = true →
  json_loads (text r) = Some data →
  py_get data "results" (JArray []) = Returned results →
  py_iter results = Returned (good ++ bad :: rest)%list →
  Forall (λ contact, ∃ item, contact_to_item contact = Returned item) good →
  contact_to_item bad = Raised e →
  get_items_hubspot credentials w
  = (Returned (ItemsDict (error_dict (exn_str e))),
     {| redis := redis w;
        log := log w ++ [(ERROR, "Error in get_items_hubspot: " +:+ exn_str e)] |}).
Proof.
  intros Hload Htoken Htruthy Hreply Hok Hdata Hresults Hiter Hgood Hbad.
  rewrite (get_items_listing _ _ _ _ _ _ _ w Hload Htoken Htruthy Hreply Hok Hdata
             Hresults Hiter).
  rewrite (collect_items_first_failure _ _ _ _ _ Hgood Hbad).
  pose proof (contact_to_item_raises _ _ Hbad) as Hkind.
  unfold on_fetch_error. destruct e; try reflexivity. by destruct (Hkind r0).
Qed.

(** X19: the first record of the listing that fails to normalise decides the
    answer: the fetch returns the text of its exception as the error, logs it
    at level ERROR, and returns none of the items built before it. *)
Theorem fetch_first_failure
  (credentials credentials_dict access_token data results : json)
  (r : response) (good rest : list json) (bad : json) (e : exn) (w : world) :
  load_credentials credentials = Returned credentials_dict →
  py_get credentials_dict "access_token" JNull = Returned access_token →
  truthy access_token = true →
  provider (listing_request access_token) = Reply r →
  is_success r = true →
  json_loads (text r) = Some data →
  py_get data "results" (JArray []) = Returned results →
  py_iter results = Returned (good ++ bad :: rest)%list →
  Forall (λ contact, ∃ item, contact_to_item contact = Returned item) good →
  contact_to_item bad = Raised e →
  get_items_hubspot credentials w
  = (Returned (ItemsDict (error_dict (exn_str e))),
     {| redis := redis w;
        log := log w ++ [(ERROR, "Error in get_items_hubspot: " +:+ exn_str e)] |}).
Proof.
  intros Hload Htoken Htruthy Hreply Hok Hdata Hresults Hiter Hgood Hbad.
  by eapply fetch_first_failure_aux.
Qed.

(** X20: when every record of the listing is normalised, the fetch returns
    the items, leaves the store alone and adds one record to the log, at
    level INFO, with the number of records. *)
Theorem fetch_logs_count
  (credentials credentials_dict access_token data results : json)
  (r : response) (contacts : list json) (w : world) :
  load_credentials credentials = Returned credentials_dict →
  py_get credentials_dict "access_token" JNull = Returned access_token →
  truthy access_token = true →
  provider (listing_request access_token) = Reply r →
  is_success r = true →
  json_loads (text r) = Some data →
  py_get data "results" (JArray []) = Returned results →
  py_iter results = Returned contacts →
  Forall (λ contact, ∃ item, contact_to_item contact = Returned item) contacts →
  ∃ items,
    get_items_hubspot credentials w
    = (Returned (ItemList items),
       {| redis := redis w;
          log := log w ++ [(INFO, "Retrieved " +:+ pretty (length contacts)
                                  +:+ " contacts from HubSpot")] |}).
Proof.
  intros Hload Htoken Htruthy Hreply Hok Hdata Hresults Hiter Hall.
  rewrite (get_items_listing _ _ _ _ _ _ _ w Hload Htoken Htruthy Hreply Hok Hdata
             Hresults Hiter).
  destruct (collect_items_all contacts [] Hall) as [items Hitems]. rewrite Hitems.
  exists items. apply collect_items_spec in Hitems as (new & Hnew & ->). simpl.
  by rewrite (Forall2_length _ _ _ Hnew).
Qed.

(** X21: a listing whose [results] is not a list is still iterated as Python
    iterates it: a string gives one record per character, a dict one record
    per key, and each such record, being a string, fails to normalise; so a
    non-empty string or dict under [results] ends the fetch with the
    [AttributeError] of [str.get]. *)
Theorem fetch_results_not_a_list
  (credentials credentials_dict access_token data results : json)
  (r : response) (first : string) (others : list json) (w : world) :
  load_credentials credentials = Returned credentials_dict →
  py_get credentials_dict "access_token" JNull = Returned access_token →
  truthy access_token = true →
  provider (listing_request access_token) = Reply r →
  is_success r = true →
  json_loads (text r) = Some data →
  py_get data "results" (JArray []) = Returned results →
  py_iter results = Returned (JString first :: others) →
  get_items_hubspot credentials w
  = (Returned (ItemsDict (error_dict (exn_str (AttributeError (JString first) "get")))),
     {| redis := redis w;
        log := log w ++ [(ERROR, "Error in get_items_hubspot: "
                                 +:+ exn_str (AttributeError (JString first) "get"))] |}).
Proof.
  intros Hload Htoken Htruthy Hreply Hok Hdata Hresults Hiter.
  apply (fetch_first_failure_aux credentials credentials_dict access_token data results
           r [] others (JString first)); try done.
Qed.

End Listing.

(** ** The fields of an item *)

Section StripFacts.

Lemma append_nil_r (s : string) : s +:+ "" = s.
Proof. induction s as [|a s IH]; simpl; [done|]. by rewrite IH. Qed.

Lemma append_assoc (a b c : string) : (a +:+ b) +:+ c = a +:+ (b +:+ c).
Proof. induction a as [|x a IH]; simpl; [done|]. by rewrite IH. Qed.

Lemma length_append (a b : string) :
  String.length (a +:+ b) = (String.length a + String.length b)%nat.
Proof. induction a as [|x a IH]; simpl; [done|]. by rewrite IH. Qed.

Lemma reverse_onto_spec (s acc : string) :
  PyStr.reverse_onto s acc = PyStr.reverse s +:+ acc.
Proof.
  unfold PyStr.reverse. revert acc.
  induction s as [|a s IH]; intros acc; simpl; [done|].
  rewrite (IH (String a acc)), (IH (String a "")), append_assoc. done.
Qed.

Lemma reverse_app (a b : string) :
  PyStr.reverse (a +:+ b) = PyStr.reverse b +:+ PyStr.reverse a.
Proof.
  induction a as [|x a IH]; simpl.
  - by rewrite append_nil_r.
  - unfold PyStr.reverse in *. simpl.
    rewrite (reverse_onto_spec (a +:+ b)), (reverse_onto_spec a).
    unfold PyStr.reverse in *. by rewrite IH, append_assoc.
Qed.

Lemma reverse_involutive (s : string) : PyStr.reverse (PyStr.reverse s) = s.
Proof.
  induction s as [|a s IH]; [done|].
  change (String a s) with (String a "" +:+ s) at 1.
  rewrite reverse_app, reverse_app, IH. done.
Qed.

Lemma length_reverse (s : string) : String.length (PyStr.reverse s) = String.length s.
Proof.
  induction s as [|a s IH]; [done|].
  change (String a s) with (String a "" +:+ s) at 1.
  rewrite reverse_app, length_append, IH. simpl. lia.
Qed.

(** A white-space character at the head is a prefix of one, two or three
    bytes. *)
Lemma space_head_split (s rest : string) :
  PyStr.space_head s = Some rest →
  ∃ space, s = space +:+ rest ∧ (0 < String.length space)%nat.
Proof.
  unfold PyStr.space_head. intros Hhead.
  destruct s as [|a [|b [|c r3]]]; repeat case_match; simplify_eq.
  all: first [ exists (String a ""); split; [reflexivity|simpl; lia]
             | exists (String a (String b "")); split; [reflexivity|simpl; lia]
             | exists (String a (String b (String c ""))); split; [reflexivity|simpl; lia] ].
Qed.

Lemma space_head_rev_split (s rest : string) :
  PyStr.space_head_rev s = Some rest →
  ∃ space, s = space +:+ rest ∧ (0 < String.length space)%nat.
Proof.
  unfold PyStr.space_head_rev. intros Hhead.
  destruct s as [|a [|b [|c r3]]]; repeat case_match; simplify_eq.
  all: first [ exists (String a ""); split; [reflexivity|simpl; lia]
             | exists (String a (String b "")); split; [reflexivity|simpl; lia]
             | exists (String a (String b (String c ""))); split; [reflexivity|simpl; lia] ].
Qed.

Lemma space_head_app (s rest more : string) :
  PyStr.space_head s = Some rest →
  PyStr.space_head (s +:+ more) = Some (rest +:+ more).
Proof.
  unfold PyStr.space_head. intros Hhead.
  destruct s as [|a [|b [|c r3]]]; simpl; repeat case_match; simplify_eq; done.
Qed.

Section DropSpaces.
Variable head : string → option string.
Hypothesis head_split :
  ∀ s rest, head s = Some rest →
            ∃ space, s = space +:+ rest ∧ (0 < String.length space)%nat.

Lemma drop_spaces_done (fuel : nat) (s : string) :
  (String.length s ≤ fuel)%nat → head (PyStr.drop_spaces head fuel s) = None.
Proof using head_split.
  revert s. induction fuel as [|fuel IH]; intros s Hlen; simpl.
  - destruct (head s) as [rest|] eqn:Hhead; [|done].
    destruct (head_split _ _ Hhead) as (space & -> & Hspace).
    rewrite length_append in Hlen. lia.
  - destruct (head s) as [rest|] eqn:Hhead; [|done].
    apply IH. destruct (head_split _ _ Hhead) as (space & -> & Hspace).
    rewrite length_append in Hlen. lia.
Qed.

Lemma drop_spaces_suffix (fuel : nat) (s : string) :
  ∃ dropped, s = dropped +:+ PyStr.drop_spaces head fuel s.
Proof using head_split.
  revert s. induction fuel as [|fuel IH]; intros s; simpl; [by exists ""|].
  destruct (head s) as [rest|] eqn:Hhead; [|by exists ""].
  destruct (head_split _ _ Hhead) as (space & -> & _).
  destruct (IH rest) as [dropped Hrest]. exists (space +:+ dropped).
  by rewrite append_assoc, <- Hrest.
Qed.

End DropSpaces.

Lemma strip_trimmed (s : string) : PyStr.trimmed (PyStr.strip s) = true.
Proof.
  unfold PyStr.trimmed, PyStr.strip, PyStr.no_leading_space, PyStr.no_trailing_space.
  set (t := PyStr.lstrip s).
  assert (Ht : PyStr.space_head t = None).
  { apply (drop_spaces_done _ space_head_split). done. }
  unfold PyStr.rstrip.
  set (k := PyStr.drop_spaces PyStr.space_head_rev (String.length t) (PyStr.reverse t)).
  assert (Hk : PyStr.space_head_rev k = None).
  { apply (drop_spaces_done _ space_head_rev_split). by rewrite length_reverse. }
  rewrite reverse_involutive, Hk, andb_true_r.
  destruct (PyStr.space_head (PyStr.reverse k)) as [rest|] eqn:Hhead; [|done].
  destruct (drop_spaces_suffix _ space_head_rev_split (String.length t) (PyStr.reverse t))
    as [dropped Hsplit].
  fold k in Hsplit.
  assert (Hback : t = PyStr.reverse k +:+ PyStr.reverse dropped).
  { by rewrite <- reverse_app, <- Hsplit, reverse_involutive. }
  rewrite Hback in Ht. by rewrite (space_head_app _ _ _ Hhead) in Ht.
Qed.

Lemma replace_trailing_Z (s : string) :
  PyStr.has "Z" s = false →
  PyStr.replace "Z" "+00:00" (s +:+ "Z") = s +:+ "+00:00".
Proof.
  induction s as [|a s IH]; simpl; [done|].
  intros [Ha Hs]%orb_false_iff. rewrite Ha. by rewrite (IH Hs).
Qed.

End StripFacts.

Section Items.
Context `{Platform}.

Ltac invert_item Hitem members props Hprops :=
  unfold contact_to_item in Hitem;
  match type of Hitem with
  | context [py_get ?contact "properties" _] =>
      destruct contact as [| | | | | |members]; try discriminate
  end;
  simpl in Hitem;
  match type of Hitem with
  | context [default (JObject []) ?found] =>
      destruct (default (JObject []) found) as [| | | | | |props] eqn:Hprops;
      try discriminate
  end;
  simpl in Hitem;
  match type of Hitem with
  | context [parse_timestamp ?p "createdate"] =>
      destruct (parse_timestamp p "createdate") eqn:?Hcreated; try discriminate
  end;
  match type of Hitem with
  | context [parse_timestamp ?p "lastmodifieddate"] =>
      destruct (parse_timestamp p "lastmodifieddate") eqn:?Hmodified; try discriminate
  end;
  simpl in Hitem; injection Hitem as <-.

Lemma contact_to_item_constants (contact : json) (item : IntegrationItem.t) :
  contact_to_item contact = Returned item →
  IntegrationItem.type item = "contact"
  ∧ IntegrationItem.visibility item = true
  ∧ py_get contact "id" JNull = Returned (IntegrationItem.id item)
  ∧ dict_lookup "hubspot_id" (IntegrationItem.metadata item)
    = Some (IntegrationItem.id item)
  ∧ ∃ props, py_get contact "properties" (JObject []) = Returned props
             ∧ py_get props "email" JNull = Returned (IntegrationItem.email item).
Proof.
  intros Hitem. invert_item Hitem members props Hprops. simpl.
  repeat split; try done. exists (JObject props). by rewrite Hprops.
Qed.

Lemma contact_to_item_name (contact : json) (item : IntegrationItem.t) :
  contact_to_item contact = Returned item →
  PyStr.trimmed (IntegrationItem.name item) = true
  ∧ ∀ props, py_get contact "properties" (JObject []) = Returned props →
             py_in "firstname" props = Returned false →
             py_in "lastname" props = Returned false →
             IntegrationItem.name item = "".
Proof.
  intros Hitem. invert_item Hitem members props Hprops.
  split; [apply strip_trimmed|].
  intros record_props Hget Hfirst Hlast. simpl in Hget. rewrite Hprops in Hget.
  injection Hget as <-. simpl in Hfirst, Hlast. unfold dict_has in Hfirst, Hlast.
  simpl. destruct (dict_lookup "firstname" props); [discriminate|].
  destruct (dict_lookup "lastname" props); [discriminate|]. reflexivity.
Qed.

Lemma contact_to_item_created (contact : json) (item : IntegrationItem.t)
  (props : list (string * json)) (stamp : string) :
  contact_to_item contact = Returned item →
  py_get contact "properties" (JObject []) = Returned (JObject props) →
  dict_lookup "createdate" props = Some (JString (stamp +:+ "Z")) →
  PyStr.has "Z" stamp = false →
  IntegrationItem.creation_time item = fromisoformat (stamp +:+ "+00:00")
  ∧ dict_lookup "created_at" (IntegrationItem.metadata item)
    = Some (JString (stamp +:+ "Z")).
Proof.
  intros Hitem Hget Hstamp HZ. invert_item Hitem members record_props Hprops.
  simpl in Hget. rewrite Hprops in Hget. injection Hget as ->. simpl.
  rewrite Hstamp. split; [|done].
  unfold parse_timestamp, py_fromisoformat in Hcreated. simpl in Hcreated.
  unfold dict_has in Hcreated. rewrite Hstamp in Hcreated. simpl in Hcreated.
  rewrite (replace_trailing_Z _ HZ) in Hcreated.
  destruct (fromisoformat (stamp +:+ "+00:00")); simpl in Hcreated; [|discriminate].
  by injection Hcreated as <-.
Qed.

(** X22: every item of a returned list has the type [contact] and is
    visible; its [id] is the [id] of its record, or null without one, and
    [hubspot_id] in its metadata is the same value; its [email] is the
    [email] property of the record, or null without one. *)
Theorem item_identity
  (credentials : json) (w w' : world) (items : list IntegrationItem.t)
  (item : IntegrationItem.t) :
  get_items_hubspot credentials w = (Returned (ItemList items), w') →
  item ∈ items →
  IntegrationItem.type item = "contact"
  ∧ IntegrationItem.visibility item = true
  ∧ py_get (IntegrationItem.raw_data item) "id" JNull = Returned (IntegrationItem.id item)
  ∧ dict_lookup "hubspot_id" (IntegrationItem.metadata item)
    = Some (IntegrationItem.id item)
  ∧ ∃ props,
      py_get (IntegrationItem.raw_data item) "properties" (JObject []) = Returned props
      ∧ py_get props "email" JNull = Returned (IntegrationItem.email item).
Proof.
  intros Hrun Hitem.
  destruct (get_items_member _ _ _ _ _ Hrun Hitem) as [contact Hcontact].
  rewrite (contact_to_item_raw_data _ _ Hcontact).
  by apply contact_to_item_constants.
Qed.

(** X23: the name of every item of a returned list neither begins nor ends
    with white space, and it is empty for a record with neither a first nor a
    last name. *)
Theorem item_name_trimmed
  (credentials : json) (w w' : world) (items : list IntegrationItem.t)
  (item : IntegrationItem.t) :
  get_items_hubspot credentials w = (Returned (ItemList items), w') →
  item ∈ items →
  PyStr.trimmed (IntegrationItem.name item) = true
  ∧ ∀ props,
      py_get (IntegrationItem.raw_data item) "properties" (JObject []) = Returned props →
      py_in "firstname" props = Returned false →
      py_in "lastname" props = Returned false →
      IntegrationItem.name item = "".
Proof.
  intros Hrun Hitem.
  destruct (get_items_member _ _ _ _ _ Hrun Hitem) as [contact Hcontact].
  rewrite (contact_to_item_raw_data _ _ Hcontact).
  by apply contact_to_item_name.
Qed.

(** X24: a creation date that ends in its only [Z] is read as the same text
    with [+00:00] for the [Z]: the item's [creation_time] is what
    [fromisoformat] makes of it, while [created_at] in the metadata keeps the
    text as it came. *)
Theorem item_creation_time_utc
  (credentials : json) (w w' : world) (items : list IntegrationItem.t)
  (item : IntegrationItem.t) (props : list (string * json)) (stamp : string) :
  get_items_hubspot credentials w = (Returned (ItemList items), w') →
  item ∈ items →
  py_get (IntegrationItem.raw_data item) "properties" (JObject [])
  = Returned (JObject props) →
  dict_lookup "createdate" props = Some (JString (stamp +:+ "Z")) →
  PyStr.has "Z" stamp = false →
  IntegrationItem.creation_time item = fromisoformat (stamp +:+ "+00:00")
  ∧ dict_lookup "created_at" (IntegrationItem.metadata item)
    = Some (JString (stamp +:+ "Z")).
Proof.
  intros Hrun Hitem Hget Hstamp HZ.
  destruct (get_items_member _ _ _ _ _ Hrun Hitem) as [contact Hcontact].
  rewrite (contact_to_item_raw_data _ _ Hcontact) in Hget.
  by eapply contact_to_item_created.
Qed.

End Items.

(** ** The other parameters of the authorization URL *)

Section AuthorizeParameters.
Context `{Platform}.

(** X25: read back from the URL [authorize_hubspot] returns, [client_id] and
    [redirect_uri] are the configured values and [scope] is the two contact
    scopes separated by a space, provided the configured values are not empty
    and hold none of [&], [#], [%], [+], TAB, LF and CR, and the identifiers
    hold neither [&] nor [#]. *)
Theorem authorization_url_parameters (user_id org_id : string) (w : world) :
  PyStr.free_of "&#" user_id = true →
  PyStr.free_of "&#" org_id = true →
  PyStr.free_of ("&#%+" +:+ Url.unsafe) HUBSPOT_CLIENT_ID = true →
  PyStr.free_of ("&#%+" +:+ Url.unsafe) HUBSPOT_REDIRECT_URI = true →
  HUBSPOT_CLIENT_ID ≠ "" →
  HUBSPOT_REDIRECT_URI ≠ "" →
  ∃ url,
    authorize_hubspot user_id org_id w
    = (Returned (JObject [("authorization_url", JString url)]), w)
    ∧ Url.query_values url "client_id" = [HUBSPOT_CLIENT_ID]
    ∧ Url.query_values url "redirect_uri" = [HUBSPOT_REDIRECT_URI]
    ∧ Url.query_values url "scope"
      = ["crm.objects.contacts.read crm.objects.contacts.write"].
Proof.
  intros Hu Ho Hc Hr Hcne Hrne.
  rewrite free_of_app in Hc, Hr.
  apply andb_true_iff in Hc as [Hc Hcs], Hr as [Hr Hrs].
  simpl in Hu, Ho, Hc, Hr.
  apply andb_true_iff in Hu as [Hu [Hu' _]%andb_true_iff].
  apply andb_true_iff in Ho as [Ho [Ho' _]%andb_true_iff].
  apply andb_true_iff
    in Hc as [Hc [Hc' [Hcp [Hcq _]%andb_true_iff]%andb_true_iff]%andb_true_iff].
  apply andb_true_iff
    in Hr as [Hr [Hr' [Hrp [Hrq _]%andb_true_iff]%andb_true_iff]%andb_true_iff].
  apply negb_true_iff in Hu, Hu', Ho, Ho', Hc, Hc', Hcp, Hcq, Hr, Hr', Hrp, Hrq.
  exists (authorization_url user_id org_id). split; [apply authorize_url|].
  unfold Url.query_values, Url.parse_qsl.
  rewrite query_of_authorization_url by done.
  rewrite (remove_unsafe_without _ Hcs), (remove_unsafe_without _ Hrs).
  rewrite split_at by (rewrite has_app; simpl; rewrite Hc; reflexivity).
  rewrite split_at by (rewrite has_app; simpl; rewrite Hr; reflexivity).
  rewrite split_at by reflexivity.
  rewrite split_without
    by (rewrite has_app; simpl; rewrite !has_app; simpl;
        rewrite !has_remove_unsafe by done; reflexivity).
  cbn [omap list_omap].
  rewrite !field_named by reflexivity.
  rewrite (nonempty_true _ Hcne), (nonempty_true _ Hrne).
  rewrite (unquote_plus_without _ Hcp Hcq), (unquote_plus_without _ Hrp Hrq).
  assert (Hstate : PyStr.nonempty
                     (Url.remove_unsafe user_id +:+ "_" +:+ Url.remove_unsafe org_id)
                   = true)
    by (by destruct (Url.remove_unsafe user_id)).
  rewrite Hstate. repeat split; reflexivity.
Qed.

End AuthorizeParameters.

(** ** The properties above, on the concrete platform *)

Lemma empty_stored_value_is_absent_witness :
  get_hubspot_credentials (H := Sample.hubspot) "u1" "o1" (Sample.stored "")
  = (Returned NoCredentials, Sample.stored "").
Proof.
  apply (empty_stored_value_is_absent (H := Sample.hubspot) "u1" "o1" (JInt 1800)).
  vm_compute. reflexivity.
Defined.

Lemma callback_touches_only_state_key_witness :
  redis (snd (oauth2callback_hubspot (H := Sample.hubspot)
                (Sample.callback (Some "c0de") (Some "u1_o1")) (Sample.stored "kept")))
    !! "hubspot_credentials_u2_o2"
  = redis (Sample.stored "kept") !! "hubspot_credentials_u2_o2".
Proof.
  apply (callback_touches_only_state_key (H := Sample.hubspot)).
  vm_compute. discriminate.
Defined.

Lemma callback_leaves_other_pairs_witness :
  fst (get_hubspot_credentials (H := Sample.hubspot) "u1" "o1"
         (snd (oauth2callback_hubspot (H := Sample.hubspot)
                 (Sample.callback (Some "c0de") (Some "u2_o2"))
                 (Sample.stored (Sample.dumps Sample.credential)))))
  = fst (get_hubspot_credentials (H := Sample.hubspot) "u1" "o1"
           (Sample.stored (Sample.dumps Sample.credential))).
Proof.
  apply (callback_leaves_other_pairs (H := Sample.hubspot)).
  - reflexivity.
  - vm_compute. discriminate.
Defined.

Lemma callback_writes_only_on_success_witness :
  redis (snd (oauth2callback_hubspot (H := Sample.hubspot)
                (Sample.callback None (Some "u1_o1")) (Sample.stored "kept")))
  = redis (Sample.stored "kept").
Proof.
  apply (callback_writes_only_on_success (H := Sample.hubspot)).
  vm_compute. discriminate.
Defined.

Lemma underscore_in_identifier_is_refused_witness :
  oauth2callback_hubspot (H := Sample.hubspot)
    (Sample.callback (Some "c0de") (Some "a_b_c")) Sample.empty_world
  = (Returned (Dict InvalidState), Sample.empty_world).
Proof.
  apply (underscore_in_identifier_is_refused (H := Sample.hubspot)
           (Sample.callback (Some "c0de") (Some "a_b_c")) Sample.empty_world
           "c0de" "a_b" "c").
  - vm_compute. reflexivity.
  - discriminate.
  - vm_compute. reflexivity.
  - left. reflexivity.
Defined.

Lemma token_exchange_refused_witness :
  oauth2callback_hubspot
    (H := Sample.platform (Sample.refused "bad code") (Sample.ok Sample.listing_body))
    (Sample.callback (Some "c0de") (Some "u1_o1")) Sample.empty_world
  = (Returned (Dict (error_dict "bad code")),
     {| redis := ∅;
        log := [(ERROR, "Failed to retrieve access token: bad code")] |}).
Proof.
  apply (token_exchange_refused
           (H := Sample.platform (Sample.refused "bad code") (Sample.ok Sample.listing_body))
           (Sample.callback (Some "c0de") (Some "u1_o1")) Sample.empty_world
           "c0de" "u1" "o1" {| status_code := 401; text := "bad code" |});
    try (vm_compute; reflexivity).
  discriminate.
Defined.


Lemma token_exchange_not_an_object_witness :
  oauth2callback_hubspot
    (H := Sample.platform (Sample.ok "[]") (Sample.ok Sample.listing_body))
    (Sample.callback (Some "c0de") (Some "u1_o1")) Sample.empty_world
  = (Raised (AttributeError (JArray []) "get"), Sample.empty_world).
Proof.
  apply (token_exchange_not_an_object
           (H := Sample.platform (Sample.ok "[]") (Sample.ok Sample.listing_body))
           (Sample.callback (Some "c0de") (Some "u1_o1")) Sample.empty_world
           "c0de" "u1" "o1" {| status_code := 200; text := "[]" |});
    try (vm_compute; reflexivity); discriminate.
Defined.

Lemma fetch_without_token_witness :
  get_items_hubspot (H := Sample.hubspot)
    (JObject [("access_token", JString "")]) Sample.empty_world
  = (Returned (ItemsDict MissingAccessToken), Sample.empty_world).
Proof.
  apply (fetch_without_token (H := Sample.hubspot)
           (JObject [("access_token", JString "")])
           (JObject [("access_token", JString "")]) (JString "") Sample.empty_world);
    reflexivity.
Defined.

Lemma fetch_refused_witness :
  get_items_hubspot
    (H := Sample.platform (Sample.ok Sample.token_body) (Sample.refused "expired"))
    Sample.credential Sample.empty_world
  = (Returned (ItemsDict (error_dict "expired")),
     {| redis := ∅; log := [(ERROR, "HubSpot API Error: expired")] |}).
Proof.
  apply (fetch_refused
           (H := Sample.platform (Sample.ok Sample.token_body) (Sample.refused "expired"))
           Sample.credential Sample.credential (JString "tok123")
           {| status_code := 401; text := "expired" |} Sample.empty_world);
    vm_compute; reflexivity.
Defined.

Lemma fetch_transport_fault_witness :
  get_items_hubspot
    (H := Sample.platform (Sample.ok Sample.token_body) (TransportFault "timed out"))
    Sample.credential Sample.empty_world
  = (Returned (ItemsDict (error_dict "timed out")),
     {| redis := ∅; log := [(ERROR, "Error in get_items_hubspot: timed out")] |}).
Proof.
  apply (fetch_transport_fault
           (H := Sample.platform (Sample.ok Sample.token_body) (TransportFault "timed out"))
           Sample.credential Sample.credential (JString "tok123") "timed out"
           Sample.empty_world);
    vm_compute; reflexivity.
Defined.

Lemma fetch_string_credential_witness :
  get_items_hubspot (H := Sample.hubspot)
    (JString (Sample.dumps Sample.credential)) Sample.empty_world
  = get_items_hubspot (H := Sample.hubspot) Sample.credential Sample.empty_world.
Proof.
  apply (fetch_string_credential (H := Sample.hubspot)
           (Sample.dumps Sample.credential) Sample.credential Sample.empty_world).
  - vm_compute. reflexivity.
  - discriminate.
Defined.

Lemma fetch_bad_credential_witness :
  get_items_hubspot (H := Sample.hubspot) (JString "not json") Sample.empty_world
  = (Returned (ItemsDict (error_dict "Expecting value: line 1 column 1 (char 0)")),
     {| redis := ∅;
        log := [(ERROR, "Error in get_items_hubspot: Expecting value: line 1 column 1 (char 0)")] |}).
Proof.
  apply (fetch_bad_credential (H := Sample.hubspot)
           (JString "not json") Sample.empty_world (JSONDecodeError "not json")).
  left. exists "not json". split; [reflexivity|]. split; [vm_compute|]; reflexivity.
Defined.

Lemma fetch_first_failure_witness :
  get_items_hubspot
    (H := Sample.platform (Sample.ok Sample.token_body)
            (Sample.ok (Sample.listing_of [Sample.jane; Sample.kim])))
    Sample.credential Sample.empty_world
  = (Returned (ItemsDict (error_dict "Invalid isoformat string: 'not-a-date'")),
     {| redis := ∅;
        log := [(ERROR, "Error in get_items_hubspot: Invalid isoformat string: 'not-a-date'")] |}).
Proof.
  apply (fetch_first_failure
           (H := Sample.platform (Sample.ok Sample.token_body)
                   (Sample.ok (Sample.listing_of [Sample.jane; Sample.kim])))
           Sample.credential Sample.credential (JString "tok123")
           (JObject [("results", JArray [Sample.jane_record; Sample.kim_record])])
           (JArray [Sample.jane_record; Sample.kim_record])
           {| status_code := 200; text := Sample.listing_of [Sample.jane; Sample.kim] |}
           [Sample.jane_record] [] Sample.kim_record (ValueError "not-a-date")
           Sample.empty_world);
    try (vm_compute; reflexivity).
  constructor; [|constructor]. exists Sample.jane_item. vm_compute. reflexivity.
Defined.

Lemma fetch_logs_count_witness :
  ∃ items,
    get_items_hubspot (H := Sample.hubspot) Sample.credential Sample.empty_world
    = (Returned (ItemList items),
       {| redis := ∅; log := [(INFO, "Retrieved 1 contacts from HubSpot")] |}).
Proof.
  apply (fetch_logs_count (H := Sample.hubspot)
           Sample.credential Sample.credential (JString "tok123")
           (JObject [("results", JArray [Sample.jane_record])])
           (JArray [Sample.jane_record])
           {| status_code := 200; text := Sample.listing_body |}
           [Sample.jane_record] Sample.empty_world);
    try (vm_compute; reflexivity).
  constructor; [|constructor]. exists Sample.jane_item. vm_compute. reflexivity.
Defined.

Lemma fetch_results_not_a_list_witness :
  get_items_hubspot
    (H := Sample.platform (Sample.ok Sample.token_body) (Sample.ok Sample.letters_body))
    Sample.credential Sample.empty_world
  = (Returned (ItemsDict (error_dict "'str' object has no attribute 'get'")),
     {| redis := ∅;
        log := [(ERROR, "Error in get_items_hubspot: 'str' object has no attribute 'get'")] |}).
Proof.
  apply (fetch_results_not_a_list
           (H := Sample.platform (Sample.ok Sample.token_body)
                   (Sample.ok Sample.letters_body))
           Sample.credential Sample.credential (JString "tok123")
           (JObject [("results", JString "ab")]) (JString "ab")
           {| status_code := 200; text := Sample.letters_body |}
           "a" [JString "b"] Sample.empty_world);
    vm_compute; reflexivity.
Defined.

Lemma sample_fetch_jane :
  get_items_hubspot (H := Sample.hubspot) Sample.credential Sample.empty_world
  = (Returned (ItemList [Sample.jane_item]),
     logged INFO "Retrieved 1 contacts from HubSpot" Sample.empty_world).
Proof. vm_compute. reflexivity. Qed.

Lemma item_identity_witness :
  IntegrationItem.type Sample.jane_item = "contact"
  ∧ IntegrationItem.visibility Sample.jane_item = true
  ∧ py_get (IntegrationItem.raw_data Sample.jane_item) "id" JNull
    = Returned (IntegrationItem.id Sample.jane_item)
  ∧ dict_lookup "hubspot_id" (IntegrationItem.metadata Sample.jane_item)
    = Some (IntegrationItem.id Sample.jane_item)
  ∧ ∃ props,
      py_get (IntegrationItem.raw_data Sample.jane_item) "properties" (JObject [])
      = Returned props
      ∧ py_get props "email" JNull = Returned (IntegrationItem.email Sample.jane_item).
Proof.
  apply (item_identity (H := Sample.hubspot) _ _ _ _ _ sample_fetch_jane).
  apply list_elem_of_singleton. reflexivity.
Defined.

Lemma item_name_trimmed_witness :
  PyStr.trimmed (IntegrationItem.name Sample.jane_item) = true.
Proof.
  apply (item_name_trimmed (H := Sample.hubspot) _ _ _ _ _ sample_fetch_jane).
  apply list_elem_of_singleton. reflexivity.
Defined.

Lemma item_creation_time_utc_witness :
  IntegrationItem.creation_time Sample.jane_item
  = fromisoformat (Platform := Sample.hubspot) "2023-01-01T00:00:00+00:00"
  ∧ dict_lookup "created_at" (IntegrationItem.metadata Sample.jane_item)
    = Some (JString "2023-01-01T00:00:00Z").
Proof.
  apply (item_creation_time_utc (H := Sample.hubspot) _ _ _ _ _
           [ ("firstname", JString "Jane"); ("lastname", JString "Doe");
             ("company", JString "Acme");
             ("createdate", JString "2023-01-01T00:00:00Z") ]
           "2023-01-01T00:00:00" sample_fetch_jane).
  - apply list_elem_of_singleton. reflexivity.
  - reflexivity.
  - reflexivity.
  - reflexivity.
Defined.

Lemma authorization_url_parameters_witness :
  ∃ url,
    authorize_hubspot (H := Sample.hubspot) "u1" "o1" Sample.empty_world
    = (Returned (JObject [("authorization_url", JString url)]), Sample.empty_world)
    ∧ Url.query_values url "client_id" = ["client-id"]
    ∧ Url.query_values url "redirect_uri"
      = ["http://localhost:8000/integrations/hubspot/oauth2callback"]
    ∧ Url.query_values url "scope"
      = ["crm.objects.contacts.read crm.objects.contacts.write"].
Proof.
  apply (authorization_url_parameters (H := Sample.hubspot) "u1" "o1" Sample.empty_world);
    try (vm_compute; reflexivity); discriminate.
Defined.
